(** * hextoc: binary data to C [unsigned char] array text

    A shallow embedding of the two formatting functions of [src/hextoc.py],
    [binary_to_c_array] (escaped-string style, [\xHH]) and
    [binary_to_c_array_multiline] (hex-array style, [0xHH]), together with
    the re-parsers needed to state the round-trip properties.

    Python values are modelled as follows:
    - [bytes]            : [list byte]
    - [str]              : [string]
    - [int]              : [Z] (widths, indices), [nat] for [len]
    - a raised exception : [Raise e] in the [result] type. *)

From Stdlib Require Import List ZArith Lia Bool Ascii String Decimal DecimalString.
From Stdlib.Strings Require Import Byte.
From Stdlib Require DecimalNat.
Import ListNotations.
Local Open Scope Z_scope.
Local Open Scope string_scope.

(** ** Python runtime pieces used by the source *)

Module Py.

Inductive exn : Set := ValueError | IndexError.

Inductive result (A : Type) : Type :=
| Ok (a : A)
| Raise (e : exn).
Arguments Ok {A} a.
Arguments Raise {A} e.

Definition bind {A B : Type} (m : result A) (k : A -> result B) : result B :=
  match m with
  | Ok a => k a
  | Raise e => Raise e
  end.

(** [len(range(start, stop, step))] for a non-zero step, as CPython computes it. *)
Definition range_length (start stop step : Z) : nat :=
  if (0 <? step)%Z then
    if (start <? stop)%Z then Z.to_nat ((stop - start - 1) / step + 1) else O
  else
    if (stop <? start)%Z then Z.to_nat ((start - stop - 1) / (- step) + 1) else O.

(** [range(start, stop, step)]: a zero step raises [ValueError]; otherwise
    the elements are [start + k * step] for [k < len]. *)
Definition range (start stop step : Z) : result (list Z) :=
  if (step =? 0)%Z then Raise ValueError
  else Ok (map (fun k => start + Z.of_nat k * step)
               (seq O (range_length start stop step))).

(** Normalisation of one slice bound against a sequence of length [n]
    (step 1): negative bounds count from the end, then both are clamped. *)
Definition slice_bound (n i : Z) : Z :=
  if (i <? 0)%Z then Z.max 0 (i + n) else Z.min i n.

(** [l[lo:hi]] *)
Definition slice {A : Type} (l : list A) (lo hi : Z) : list A :=
  let n := Z.of_nat (List.length l) in
  let lo' := slice_bound n lo in
  let hi' := slice_bound n hi in
  firstn (Z.to_nat (hi' - lo')) (skipn (Z.to_nat lo') l).

(** [l.append(x)] *)
Definition list_append {A : Type} (l : list A) (x : A) : list A :=
  (l ++ [x])%list.

(** [sep.join(parts)] *)
Definition join (sep : string) (parts : list string) : string :=
  String.concat sep parts.

(** [l[-1] += s] on a list of strings; an empty list raises [IndexError]. *)
Fixpoint iadd_last (l : list string) (s : string) : result (list string) :=
  match l with
  | [] => Raise IndexError
  | [x] => Ok [x ++ s]
  | x :: r => bind (iadd_last r s) (fun r' => Ok (x :: r'))
  end.

(** Uppercase hexadecimal digit of a value below 16. *)
Definition hex_digit (n : N) : ascii :=
  match n with
  | 0%N => "0" | 1%N => "1" | 2%N => "2" | 3%N => "3"
  | 4%N => "4" | 5%N => "5" | 6%N => "6" | 7%N => "7"
  | 8%N => "8" | 9%N => "9" | 10%N => "A" | 11%N => "B"
  | 12%N => "C" | 13%N => "D" | 14%N => "E" | _ => "F"
  end%char.

(** [f"{byte:02X}"] for an element of a [bytes] object (0..255): exactly two
    uppercase digits, zero padded. *)
Definition format_02X (b : byte) : string :=
  let n := Byte.to_N b in
  String (hex_digit (n / 16)) (String (hex_digit (n mod 16)) EmptyString).

(** [str(n)] for a length. *)
Definition str (n : nat) : string :=
  NilZero.string_of_uint (Nat.to_uint n).

End Py.

Import Py.

Notation "x <- m ;; k" := (bind m (fun x => k))
  (at level 61, m at next level, right associativity).

(** Characters that cannot be written directly inside a literal. *)
Definition dquote : string := String (ascii_of_nat 34) EmptyString.
Definition newline : string := String (ascii_of_nat 10) EmptyString.

(** ** The two formatters, after [src/hextoc.py] *)

Definition binary_to_c_array
    (data : list byte) (array_name : string) (bytes_per_line : Z)
  : result string :=
  match data with
  | [] => Ok ("unsigned char " ++ array_name ++ "[] = " ++ dquote ++ dquote ++ ";")
  | _ =>
    let hex_values := map (fun byte => "\x" ++ format_02X byte) data in
    let output := @nil string in
    let output := list_append output ("unsigned char " ++ array_name ++ "[] =") in
    idxs <- range 0 (Z.of_nat (List.length hex_values)) bytes_per_line ;;
    let output :=
      fold_left
        (fun output i =>
           let line_values := slice hex_values i (i + bytes_per_line) in
           let line_content := join EmptyString line_values in
           let line :=
             if (i =? 0)%Z then "    " ++ dquote ++ line_content ++ dquote
             else "    " ++ dquote ++ line_content ++ dquote in
           list_append output line)
        idxs output in
    output <- iadd_last output ";" ;;
    let output :=
      list_append output ("/* Length: " ++ str (List.length data) ++ " bytes */") in
    Ok (join newline output)
  end.

Definition binary_to_c_array_multiline
    (data : list byte) (array_name : string) (bytes_per_line : Z)
  : result string :=
  match data with
  | [] => Ok ("unsigned char " ++ array_name ++ "[] = {};")
  | _ =>
    let output := @nil string in
    let output := list_append output ("unsigned char " ++ array_name ++ "[] = {") in
    idxs <- range 0 (Z.of_nat (List.length data)) bytes_per_line ;;
    let output :=
      fold_left
        (fun output i =>
           let line_data := slice data i (i + bytes_per_line) in
           let hex_values := map (fun byte => "0x" ++ format_02X byte) line_data in
           let line := "    " ++ join ", " hex_values in
           let line :=
             if (i + bytes_per_line <? Z.of_nat (List.length data))%Z
             then line ++ "," else line in
           list_append output line)
        idxs output in
    let output := list_append output "};" in
    let output :=
      list_append output ("/* Length: " ++ str (List.length data) ++ " bytes */") in
    Ok (join newline output)
  end.

(** ** Reading the produced text back

    The properties of the formatters are stated on the returned string
    itself.  The functions below cut it into lines and read the encoded
    bytes back; they are strict and answer [None] on malformed text. *)

Module Reader.

Definition ch_newline : ascii := ascii_of_nat 10.
Definition ch_dquote : ascii := ascii_of_nat 34.

(** Does character [c] occur in [s]? *)
Fixpoint occurs (c : ascii) (s : string) : bool :=
  match s with
  | EmptyString => false
  | String a r => Ascii.eqb a c || occurs c r
  end.

(** The text that follows the last occurrence of [c]. *)
Fixpoint after_last (c : ascii) (s : string) : option string :=
  match s with
  | EmptyString => None
  | String a r =>
    match after_last c r with
    | Some t => Some t
    | None => if Ascii.eqb a c then Some r else None
    end
  end.

(** The text that precedes the first occurrence of [c]. *)
Fixpoint before_first (c : ascii) (s : string) : option string :=
  match s with
  | EmptyString => None
  | String a r =>
    if Ascii.eqb a c then Some EmptyString
    else option_map (String a) (before_first c r)
  end.

(** [s.split(newline)] *)
Fixpoint split_lines (s : string) : list string :=
  match s with
  | EmptyString => [EmptyString]
  | String a r =>
    if Ascii.eqb a ch_newline then EmptyString :: split_lines r
    else match split_lines r with
         | x :: xs => String a x :: xs
         | [] => [String a EmptyString]
         end
  end.

Fixpoint last_char (s : string) : option ascii :=
  match s with
  | EmptyString => None
  | String a EmptyString => Some a
  | String _ r => last_char r
  end.

(** Is [p] a contiguous part of [s]? *)
Fixpoint contains (s p : string) : bool :=
  String.prefix p s ||
  match s with
  | EmptyString => false
  | String _ r => contains r p
  end.

Definition is_blank (c : ascii) : bool :=
  Ascii.eqb c " " || Ascii.eqb c ch_newline.

Fixpoint strip_blanks (s : string) : string :=
  match s with
  | EmptyString => EmptyString
  | String a r => if is_blank a then strip_blanks r else String a (strip_blanks r)
  end.

(** Value of an uppercase hexadecimal digit. *)
Definition hex_value (c : ascii) : option N :=
  (if Ascii.eqb c "0" then Some 0 else if Ascii.eqb c "1" then Some 1
   else if Ascii.eqb c "2" then Some 2 else if Ascii.eqb c "3" then Some 3
   else if Ascii.eqb c "4" then Some 4 else if Ascii.eqb c "5" then Some 5
   else if Ascii.eqb c "6" then Some 6 else if Ascii.eqb c "7" then Some 7
   else if Ascii.eqb c "8" then Some 8 else if Ascii.eqb c "9" then Some 9
   else if Ascii.eqb c "A" then Some 10 else if Ascii.eqb c "B" then Some 11
   else if Ascii.eqb c "C" then Some 12 else if Ascii.eqb c "D" then Some 13
   else if Ascii.eqb c "E" then Some 14 else if Ascii.eqb c "F" then Some 15
   else None)%N.

(** The byte written by two hexadecimal digits. *)
Definition byte_of_hex (h l : ascii) : option byte :=
  match hex_value h, hex_value l with
  | Some a, Some b => Byte.of_N (16 * a + b)
  | _, _ => None
  end.

(** The text between the braces of the array initialiser: after the last
    opening brace, up to the closing brace that follows it. *)
Definition brace_body (out : string) : option string :=
  match after_last "{" out with
  | Some t => before_first "}" t
  | None => None
  end.

(** The lines strictly between the line of the opening brace and the line
    of the closing brace. *)
Definition value_lines (out : string) : list string :=
  match brace_body out with
  | Some body => removelast (tl (split_lines body))
  | None => []
  end.

(** Does a [0xHH] token start at the head of [s]? *)
Definition token_at (s : string) : bool :=
  match s with
  | String "0" (String "x" (String h (String l _))) =>
    match byte_of_hex h l with Some _ => true | None => false end
  | _ => false
  end.

(** Number of [0xHH] tokens in [s]. *)
Fixpoint count_tokens (s : string) : nat :=
  match s with
  | EmptyString => O
  | String _ r => ((if token_at s then 1 else 0) + count_tokens r)%nat
  end.

(** A non-empty comma-separated sequence of [0xHH] tokens. *)
Fixpoint parse_items (s : string) : option (list byte) :=
  match s with
  | String "0" (String "x" (String h (String l rest))) =>
    match byte_of_hex h l with
    | Some b =>
      match rest with
      | EmptyString => Some [b]
      | String "," rest' => option_map (cons b) (parse_items rest')
      | _ => None
      end
    | None => None
    end
  | _ => None
  end.

(** Re-parsing of the hex-array output: the comma-separated tokens between
    the braces, white space ignored. *)
Definition parse_hex_array (out : string) : option (list byte) :=
  match brace_body out with
  | Some body =>
    match strip_blanks body with
    | EmptyString => Some []
    | t => parse_items t
    end
  | None => None
  end.

(** Contents of the adjacent string literals of [s], concatenated as the C
    compiler does; only white space may stand between two literals. *)
Fixpoint literal_contents (inside : bool) (s : string) : option string :=
  match s with
  | EmptyString => if inside then None else Some EmptyString
  | String a r =>
    if Ascii.eqb a ch_dquote then literal_contents (negb inside) r
    else if inside then option_map (String a) (literal_contents inside r)
    else if is_blank a then literal_contents inside r
    else None
  end.

(** A sequence of [\xHH] escapes. *)
Fixpoint parse_escapes (s : string) : option (list byte) :=
  match s with
  | EmptyString => Some []
  | String "\" (String "x" (String h (String l rest))) =>
    match byte_of_hex h l with
    | Some b => option_map (cons b) (parse_escapes rest)
    | None => None
    end
  | _ => None
  end.

(** Re-parsing of the escaped-string output: the initialiser stands between
    the last [=] and the [;] that follows it; quotes and the line structure
    are stripped, the escapes read. *)
Definition parse_escaped (out : string) : option (list byte) :=
  match after_last "=" out with
  | Some t =>
    match before_first ";" t with
    | Some lits =>
      match literal_contents false lits with
      | Some body => parse_escapes body
      | None => None
      end
    | None => None
    end
  | None => None
  end.

End Reader.

Import Reader.

(** ** Chunks, lines and alphabets used in the statements *)

(** Apply a reader to the result of a formatter. *)
Definition on_ok {A B : Type} (f : A -> B) (r : result A) : option B :=
  match r with Ok a => Some (f a) | Raise _ => None end.

(** Number of chunks of width [w] in a sequence of length [n]:
    [ceil (n / w)]. *)
Definition chunk_count (n w : nat) : nat :=
  match n with
  | O => O
  | S p => S (p / w)
  end.

(** The successive non-empty suffixes [l[0:]], [l[w:]], [l[2w:]], ... *)
Fixpoint suffixes_aux {A : Type} (fuel w : nat) (l : list A) : list (list A) :=
  match fuel with
  | O => []
  | S f =>
    match l with
    | [] => []
    | _ => l :: suffixes_aux f w (skipn w l)
    end
  end.

Definition suffixes {A : Type} (w : nat) (l : list A) : list (list A) :=
  suffixes_aux (List.length l) w l.

Definition hex_token (b : byte) : string := "0x" ++ format_02X b.
Definition esc_token (b : byte) : string := "\x" ++ format_02X b.

(** The value line that starts at the suffix [s] of the data. *)
Definition hex_line (w : nat) (s : list byte) : string :=
  let line := "    " ++ join ", " (map hex_token (firstn w s)) in
  if (w <? List.length s)%nat then line ++ "," else line.

Definition esc_line (w : nat) (s : list byte) : string :=
  "    " ++ dquote ++ join EmptyString (map esc_token (firstn w s)) ++ dquote.

Definition length_comment (n : nat) : string :=
  "/* Length: " ++ str n ++ " bytes */".

(** Every character of [s] belongs to [alphabet]. *)
Fixpoint all_in (alphabet s : string) : bool :=
  match s with
  | EmptyString => true
  | String a r => occurs a alphabet && all_in alphabet r
  end.

(** [fold_right] form of a joined list with a leading separator. *)
Definition prefixed (sep : string) (ls : list string) (tail : string) : string :=
  fold_right (fun l acc => sep ++ l ++ acc) tail ls.

Definition hex_alphabet : string := "0123456789ABCDEFx, ".
Definition esc_alphabet : string := "0123456789ABCDEFx\ " ++ dquote.
Definition comment_alphabet : string := "0123456789/* Length:bytes".

Definition hex_lines (w : nat) (data : list byte) : list string :=
  map (hex_line w) (suffixes w data).

Definition items (l : list byte) : string := join "," (map hex_token l).

Definition esc_lines (w : nat) (data : list byte) : list string :=
  map (esc_line w) (suffixes w data).

Definition escapes (l : list byte) : string :=
  join EmptyString (map esc_token l).

Definition first_line (out : string) : string := hd EmptyString (split_lines out).

(** The statement of C2: the first line of the output holds the header and
    the escapes of the first chunk. *)
Definition header_and_first_chunk_on_first_line
    (data : list byte) (name : string) (w : Z) : Prop :=
  exists out, binary_to_c_array data name w = Ok out
    /\ contains (first_line out) ("unsigned char " ++ name ++ "[] =") = true
    /\ contains (first_line out) (escapes (slice data 0 w)) = true.

(** ** Reading the length comment *)

(** [s] without its prefix [p]. *)
Fixpoint strip_prefix (p s : string) : option string :=
  match p with
  | EmptyString => Some s
  | String a p' =>
    match s with
    | String b s' => if Ascii.eqb a b then strip_prefix p' s' else None
    | EmptyString => None
    end
  end.

(** The number of bytes that a line [/* Length: <N> bytes */] reports. *)
Definition read_length_comment (line : string) : option nat :=
  match strip_prefix "/* Length: " line with
  | Some rest =>
    match before_first " " rest with
    | Some digits =>
      if String.eqb rest (digits ++ " bytes */")
      then option_map Nat.of_uint (NilZero.uint_of_string digits)
      else None
    | None => None
    end
  | None => None
  end.

(** ** The command line program: [read_binary_file], [write_output], [main]

    The environment is a parameter.  [os] gives the answer of every call
    the program makes: [os.path.isfile], reading the file opened with mode
    [rb], writing the file opened with mode [w] (each made at most once in
    a run, so a function of its arguments covers every behaviour), and
    [print], whose answer may depend on everything that happened before.
    [parser.parse_args()] either returns the namespace [args] or leaves
    the program through [SystemExit]; what [argparse] itself prints is not
    recorded.  A run is a function from the trace of events so far to the
    extended trace and an outcome; [sys.exit] and an exception nobody
    catches stop the run.  Exceptions outside [Exception], such as
    [KeyboardInterrupt], are not part of the model. *)

Module Cli.

(** The exceptions [read_binary_file] tells apart; [OtherError] is any
    other [Exception], with its [str]. *)
Inductive read_error : Set :=
| FileNotFoundError
| PermissionError
| OtherError (message : string).

Inductive read_outcome : Set :=
| ReadOk (data : list byte)
| ReadFails (e : read_error).

(** [with open(path, 'w', encoding='utf-8') as f: f.write(content)]:
    [OpenFails] when [open] raises, the file untouched; [WriteFails] when
    the file was opened, hence created or truncated, and writing or
    closing it raises; [WriteOk] when the file holds [content]. *)
Inductive write_outcome : Set :=
| WriteOk
| OpenFails (message : string)
| WriteFails (message : string).

(** [print] returns or raises some [Exception], of which only [str(e)] is
    kept. *)
Inductive print_outcome : Set :=
| PrintOk
| PrintFails (message : string).

Inductive event : Set :=
| IsFile (path : string) (answer : bool)
| Read (path : string) (r : read_outcome)
| Write (path content : string) (r : write_outcome)
| Print (text : string) (r : print_outcome).

Record os : Type := {
  isfile : string -> bool;
  open_rb : string -> read_outcome;
  open_w : string -> string -> write_outcome;
  stdout_write : list event -> string -> print_outcome
}.

(** An exception that leaves [main]: one of a formatter, or one of
    [print]. *)
Inductive error : Set :=
| FormatterError (e : exn)
| PrintError (message : string).

Inductive stop : Set :=
| SystemExit (code : Z)
| Uncaught (e : error).

Inductive outcome (A : Type) : Type :=
| Done (a : A)
| Stopped (s : stop).
Arguments Done {A} a.
Arguments Stopped {A} s.

Definition io (A : Type) : Type := list event -> list event * outcome A.

Definition ret {A : Type} (a : A) : io A := fun t => (t, Done a).

Definition bind {A B : Type} (m : io A) (k : A -> io B) : io B :=
  fun t =>
    match m t with
    | (t', Done a) => k a t'
    | (t', Stopped s) => (t', Stopped s)
    end.

Definition emit (e : event) : io unit := fun t => (List.app t [e], Done tt).

Definition stopped {A : Type} (s : stop) : io A := fun t => (t, Stopped s).

(** [print(text)] inside a [try]: the answer of the environment. *)
Definition try_print (sys : os) (text : string) : io print_outcome :=
  fun t =>
    let r := stdout_write sys t text in
    (List.app t [Print text r], Done r).

(** [print(text)] outside any [try]: its exception is not caught. *)
Definition print (sys : os) (text : string) : io unit :=
  bind (try_print sys text)
       (fun r => match r with
                 | PrintOk => ret tt
                 | PrintFails e => stopped (Uncaught (PrintError e))
                 end).

(** [sys.exit(code)] *)
Definition sys_exit {A : Type} (code : Z) : io A := stopped (SystemExit code).

(** A formatter called outside any [try]: its exception is not caught. *)
Definition call {A : Type} (r : result A) : io A :=
  match r with
  | Ok a => ret a
  | Raise e => stopped (Uncaught (FormatterError e))
  end.

(** [s * n] on strings *)
Definition str_mul (s : string) (n : Z) : string :=
  Nat.iter (Z.to_nat n) (append s) EmptyString.

Declare Scope io_scope.
Delimit Scope io_scope with io.
Notation "x <- m ;; k" := (bind m (fun x => k))
  (at level 61, m at next level, right associativity) : io_scope.
Notation "m ;; k" := (bind m (fun _ => k))
  (at level 61, right associativity) : io_scope.

Record args : Type := {
  file : string;
  output : string;
  name : string;
  width : Z;
  hex_format : bool;
  preview : bool
}.

(** The values [argparse] fills in when only the input file is given. *)
Definition default_args (path : string) : args :=
  {| file := path; output := "out.txt"; name := "buf"; width := 12;
     hex_format := false; preview := false |}.

(** What [parser.parse_args()] does: it returns the namespace, or it
    raises [SystemExit] (after a usage error or for [-h]). *)
Inductive parse_outcome : Type :=
| Parsed (a : args)
| ParserExit (code : Z).

Definition read_binary_file (sys : os) (file_path : string) : io (list byte) :=
  (let r := open_rb sys file_path in
   emit (Read file_path r) ;;
   match r with
   | ReadOk data => ret data
   | ReadFails FileNotFoundError =>
     print sys ("错误: 文件 '" ++ file_path ++ "' 不存在") ;; sys_exit 1
   | ReadFails PermissionError =>
     print sys ("错误: 没有权限读取文件 '" ++ file_path ++ "'") ;; sys_exit 1
   | ReadFails (OtherError e) =>
     print sys ("错误: 读取文件时发生异常: " ++ e) ;; sys_exit 1
   end)%io.

Definition write_output (sys : os) (content output_file : string) : io unit :=
  (let r := open_w sys output_file content in
   emit (Write output_file content r) ;;
   match r with
   | WriteOk =>
     p <- try_print sys ("成功写入到文件: " ++ output_file) ;;
     match p with
     | PrintOk => ret tt
     | PrintFails e =>
       print sys ("错误: 写入文件时发生异常: " ++ e) ;; sys_exit 1
     end
   | OpenFails e | WriteFails e =>
     print sys ("错误: 写入文件时发生异常: " ++ e) ;; sys_exit 1
   end)%io.

Definition main (sys : os) (parsed : parse_outcome) : io unit :=
  match parsed with
  | ParserExit code => sys_exit code
  | Parsed a =>
    (let is_file := isfile sys (file a) in
     emit (IsFile (file a) is_file) ;;
     (if negb is_file
      then print sys ("错误: '" ++ file a ++ "' 不是一个有效的文件") ;; sys_exit 1
      else ret tt) ;;
     print sys ("读取文件: " ++ file a) ;;
     data <- read_binary_file sys (file a) ;;
     let file_size := List.length data in
     print sys ("文件大小: " ++ str file_size ++ " 字节") ;;
     c_array <- call (if hex_format a
                      then binary_to_c_array_multiline data (name a) (width a)
                      else binary_to_c_array data (name a) (width a)) ;;
     if preview a
     then print sys (newline ++ "预览输出:") ;;
          print sys (str_mul "-" 50) ;;
          print sys c_array
     else write_output sys c_array (output a) ;;
          print sys ("数组名: " ++ name a) ;;
          print sys ("数组长度: " ++ str file_size ++ " 字节"))%io
  end.

(** The run of the program, from the empty trace, in which
    [parser.parse_args()] returns [a]. *)
Definition run (sys : os) (a : args) : list event * outcome unit :=
  main sys (Parsed a) [].

(** The files opened for writing with the text meant for them, whatever
    came of it. *)
Definition write_attempts (t : list event) : list (string * string) :=
  flat_map (fun e => match e with Write p c _ => [(p, c)] | _ => [] end) t.

(** The writes that went through: the file holds the text. *)
Definition writes (t : list event) : list (string * string) :=
  flat_map (fun e => match e with
                     | Write p c WriteOk => [(p, c)]
                     | _ => []
                     end) t.

(** The files that were created or truncated, written in full or not. *)
Definition changed_files (t : list event) : list string :=
  flat_map (fun e => match e with
                     | Write p _ WriteOk => [p]
                     | Write p _ (WriteFails _) => [p]
                     | _ => []
                     end) t.

(** The texts that reached the standard output. *)
Definition printed (t : list event) : list string :=
  flat_map (fun e => match e with Print s PrintOk => [s] | _ => [] end) t.

(** The prints that raised. *)
Definition failed_prints (t : list event) : list string :=
  flat_map (fun e => match e with Print s (PrintFails _) => [s] | _ => [] end) t.

Definition reads (t : list event) : list string :=
  flat_map (fun e => match e with Read p _ => [p] | _ => [] end) t.

(** A standard output on which no [print] ever raises. *)
Definition stdout_works (sys : os) : Prop :=
  forall t text, stdout_write sys t text = PrintOk.

(** The formatter [main] selects for [a]. *)
Definition formatted (a : args) (data : list byte) : result string :=
  if hex_format a
  then binary_to_c_array_multiline data (name a) (width a)
  else binary_to_c_array data (name a) (width a).

(** The reader that matches the style [a] selects. *)
Definition parse_back (a : args) (text : string) : option (list byte) :=
  if hex_format a then parse_hex_array text else parse_escaped text.

(** An operating system with one readable regular file, on which every
    write and every print succeeds. *)
Definition one_file_os (path : string) (data : list byte) : os :=
  {| isfile := fun p => String.eqb p path;
     open_rb := fun p => if String.eqb p path then ReadOk data
                         else ReadFails FileNotFoundError;
     open_w := fun _ _ => WriteOk;
     stdout_write := fun _ _ => PrintOk |}.

(** The same, with a standard output that refuses every text. *)
Definition mute_os (path : string) (data : list byte) : os :=
  {| isfile := fun p => String.eqb p path;
     open_rb := fun p => if String.eqb p path then ReadOk data
                         else ReadFails FileNotFoundError;
     open_w := fun _ _ => WriteOk;
     stdout_write := fun _ _ => PrintFails "stdout" |}.

(** [a] with its preview flag set to [b]. *)
Definition with_preview (a : args) (b : bool) : args :=
  {| file := file a; output := output a; name := name a; width := width a;
     hex_format := hex_format a; preview := b |}.

End Cli.

(** ** The formatters over a heap of list objects

    [output] is a Python list that both formatters create and then change
    in place ([append], [output[-1] += ";"]).  Here it is an object of a
    heap that outlives the call, as in the interpreter: a call starts in
    whatever heap earlier calls have left.  [data] (a [bytes] object) and
    the strings are immutable and stay values. *)

Module Store.

Definition heap : Type := list (list string).
Definition ref : Type := nat.

(** A computation reads and changes the heap and returns or raises. *)
Definition st (A : Type) : Type := heap -> result A * heap.

Definition ret {A : Type} (a : A) : st A := fun h => (Ok a, h).

Definition bind {A B : Type} (m : st A) (k : A -> st B) : st B :=
  fun h =>
    match m h with
    | (Ok a, h') => k a h'
    | (Raise e, h') => (Raise e, h')
    end.

(** A call that does not touch the heap, such as [range]. *)
Definition lift {A : Type} (r : result A) : st A := fun h => (r, h).

Definition deref (r : ref) (h : heap) : list string := nth r h [].

Fixpoint assign (r : ref) (v : list string) (h : heap) : heap :=
  match h, r with
  | [], _ => []
  | _ :: t, O => v :: t
  | x :: t, S r' => x :: assign r' v t
  end.

(** [[]]: a new list object *)
Definition new_list : st ref :=
  fun h => (Ok (List.length h), List.app h [[]]).

(** [l.append(x)] *)
Definition append (l : ref) (x : string) : st unit :=
  fun h => (Ok tt, assign l (list_append (deref l h) x) h).

(** [l[-1] += s] *)
Definition iadd_last (l : ref) (s : string) : st unit :=
  fun h =>
    match Py.iadd_last (deref l h) s with
    | Ok v => (Ok tt, assign l v h)
    | Raise e => (Raise e, h)
    end.

(** [sep.join(l)] *)
Definition join (sep : string) (l : ref) : st string :=
  fun h => (Ok (Py.join sep (deref l h)), h).

(** [for x in xs: body] *)
Fixpoint for_each {A : Type} (xs : list A) (body : A -> st unit) : st unit :=
  match xs with
  | [] => ret tt
  | x :: r => bind (body x) (fun _ => for_each r body)
  end.

Declare Scope st_scope.
Delimit Scope st_scope with st.
Notation "x <- m ;; k" := (bind m (fun x => k))
  (at level 61, m at next level, right associativity) : st_scope.
Notation "m ;; k" := (bind m (fun _ => k))
  (at level 61, right associativity) : st_scope.

Definition binary_to_c_array
    (data : list byte) (array_name : string) (bytes_per_line : Z)
  : st string :=
  match data with
  | [] => ret ("unsigned char " ++ array_name ++ "[] = " ++ dquote ++ dquote ++ ";")
  | _ =>
    (let hex_values := map (fun byte => "\x" ++ format_02X byte) data in
     output <- new_list ;;
     append output ("unsigned char " ++ array_name ++ "[] =") ;;
     idxs <- lift (range 0 (Z.of_nat (List.length hex_values)) bytes_per_line) ;;
     for_each idxs
       (fun i =>
          let line_values := slice hex_values i (i + bytes_per_line) in
          let line_content := Py.join EmptyString line_values in
          let line :=
            if (i =? 0)%Z then "    " ++ dquote ++ line_content ++ dquote
            else "    " ++ dquote ++ line_content ++ dquote in
          append output line) ;;
     iadd_last output ";" ;;
     append output ("/* Length: " ++ str (List.length data) ++ " bytes */") ;;
     join newline output)%st
  end.

Definition binary_to_c_array_multiline
    (data : list byte) (array_name : string) (bytes_per_line : Z)
  : st string :=
  match data with
  | [] => ret ("unsigned char " ++ array_name ++ "[] = {};")
  | _ =>
    (output <- new_list ;;
     append output ("unsigned char " ++ array_name ++ "[] = {") ;;
     idxs <- lift (range 0 (Z.of_nat (List.length data)) bytes_per_line) ;;
     for_each idxs
       (fun i =>
          let line_data := slice data i (i + bytes_per_line) in
          let hex_values := map (fun byte => "0x" ++ format_02X byte) line_data in
          let line := "    " ++ Py.join ", " hex_values in
          let line :=
            if (i + bytes_per_line <? Z.of_nat (List.length data))%Z
            then line ++ "," else line in
          append output line) ;;
     append output "};" ;;
     append output ("/* Length: " ++ str (List.length data) ++ " bytes */") ;;
     join newline output)%st
  end.

End Store.

(** ** The loops in closed form *)

Section Loops.

Context {A : Type}.

Lemma fold_left_list_append {B : Type} (g : B -> A) (idxs : list B) (out : list A) :
  fold_left (fun output i => list_append output (g i)) idxs out
  = (out ++ map g idxs)%list.
Proof.
  revert out. induction idxs as [|i idxs IH]; intros out; simpl.
  - now rewrite app_nil_r.
  - rewrite IH. unfold list_append. now rewrite <- app_assoc.
Qed.

Lemma chunk_count_step (n w : nat) :
  (0 < w)%nat -> (0 < n)%nat -> chunk_count n w = S (chunk_count (n - w) w).
Proof.
  intros Hw Hn. destruct n as [|p]; [lia|].
  change (chunk_count (S p) w) with (S (p / w)).
  destruct (Nat.le_gt_cases (S p) w) as [Hle|Hgt].
  - replace (S p - w)%nat with O by lia.
    rewrite Nat.div_small by lia. reflexivity.
  - destruct (S p - w)%nat as [|q] eqn:E; [lia|].
    change (chunk_count (S q) w) with (S (q / w)). f_equal.
    replace p with (q + 1 * w)%nat by lia.
    rewrite Nat.div_add by lia. lia.
Qed.

Lemma suffixes_index (w : nat) (Hw : (0 < w)%nat) (fuel : nat) :
  forall l : list A, (List.length l <= fuel)%nat ->
  map (fun k => skipn (k * w) l) (seq O (chunk_count (List.length l) w))
  = suffixes_aux fuel w l.
Proof.
  induction fuel as [|f IH]; intros l Hl.
  - destruct l; [reflexivity | simpl in Hl; lia].
  - destruct l as [|a l']; [reflexivity|].
    assert (Hlen : List.length (skipn w (a :: l')) = (List.length (a :: l') - w)%nat)
      by apply length_skipn.
    rewrite chunk_count_step by (cbn [List.length]; lia).
    rewrite <- Hlen.
    cbn [seq map suffixes_aux Nat.mul]. f_equal.
    rewrite <- seq_shift, map_map.
    rewrite <- IH by (cbn [List.length] in *; lia).
    apply map_ext. intros k.
    rewrite skipn_skipn. f_equal. lia.
Qed.

Lemma suffixes_length (w : nat) (Hw : (0 < w)%nat) (l : list A) :
  List.length (suffixes w l) = chunk_count (List.length l) w.
Proof.
  unfold suffixes. rewrite <- (suffixes_index w Hw (List.length l) l) by lia.
  now rewrite length_map, length_seq.
Qed.

Lemma slice_nat (l : list A) (i : nat) (w : Z) :
  0 <= w ->
  slice l (Z.of_nat i) (Z.of_nat i + w) = firstn (Z.to_nat w) (skipn i l).
Proof.
  intros Hw. unfold slice, slice_bound.
  destruct (Z.ltb_spec (Z.of_nat i) 0) as [?|_]; [lia|].
  destruct (Z.ltb_spec (Z.of_nat i + w) 0) as [?|_]; [lia|].
  destruct (Nat.le_gt_cases i (List.length l)) as [Hle|Hgt].
  - rewrite (Z.min_l (Z.of_nat i)) by lia. rewrite Nat2Z.id.
    destruct (Z.le_gt_cases (Z.of_nat i + w) (Z.of_nat (List.length l))) as [H1|H1].
    + rewrite Z.min_l by lia. f_equal. lia.
    + rewrite Z.min_r by lia.
      rewrite (firstn_all2 (n := Z.to_nat w)) by (rewrite length_skipn; lia).
      apply firstn_all2. rewrite length_skipn. lia.
  - rewrite !Z.min_r by lia. rewrite Nat2Z.id.
    rewrite (skipn_all2 (n := i)) by lia.
    rewrite skipn_all2 by lia. now rewrite !firstn_nil.
Qed.

End Loops.

Lemma range_positive (n : nat) (w : Z) :
  0 < w ->
  range 0 (Z.of_nat n) w
  = Ok (map (fun k => Z.of_nat (k * Z.to_nat w)) (seq O (chunk_count n (Z.to_nat w)))).
Proof.
  intros Hw. unfold range, range_length.
  destruct (Z.eqb_spec w 0) as [?|_]; [lia|].
  destruct (Z.ltb_spec 0 w) as [_|?]; [|lia].
  f_equal.
  assert (E : (if (0 <? Z.of_nat n)%Z then Z.to_nat ((Z.of_nat n - 0 - 1) / w + 1) else O)
              = chunk_count n (Z.to_nat w)).
  { destruct n as [|p]; [reflexivity|].
    destruct (Z.ltb_spec 0 (Z.of_nat (S p))) as [_|?]; [|lia].
    simpl chunk_count.
    replace (Z.of_nat (S p) - 0 - 1) with (Z.of_nat p) by lia.
    rewrite <- (Z2Nat.id w) at 1 by lia.
    rewrite <- Nat2Z.inj_div. lia. }
  rewrite E. apply map_ext. intros k. lia.
Qed.

(** ** Strings *)

Lemma sapp_assoc (a b c : string) : (a ++ b) ++ c = a ++ (b ++ c).
Proof. induction a as [|x a IH]; simpl; [reflexivity | now rewrite IH]. Qed.

Lemma sapp_nil_r (a : string) : a ++ EmptyString = a.
Proof. induction a as [|x a IH]; simpl; [reflexivity | now rewrite IH]. Qed.

Lemma join_cons (sep x : string) (l : list string) :
  l <> [] -> join sep (x :: l) = x ++ sep ++ join sep l.
Proof. destruct l; [congruence | reflexivity]. Qed.

Lemma join_snoc (sep x : string) (l : list string) :
  l <> [] -> join sep (l ++ [x])%list = join sep l ++ sep ++ x.
Proof.
  induction l as [|y l IH]; [congruence|]. intros _.
  destruct l as [|z l]; [reflexivity|].
  change ((y :: z :: l) ++ [x])%list with (y :: ((z :: l) ++ [x]))%list.
  rewrite join_cons by (destruct l; discriminate).
  rewrite IH by discriminate.
  rewrite (join_cons sep y) by discriminate.
  now rewrite !sapp_assoc.
Qed.

Lemma iadd_last_join (sep s : string) (l : list string) :
  l <> [] ->
  exists l', iadd_last l s = Ok l' /\ l' <> [] /\ join sep l' = join sep l ++ s.
Proof.
  induction l as [|x l IH]; [congruence|]. intros _.
  destruct l as [|y l].
  - exists [x ++ s]. repeat split; discriminate || reflexivity.
  - destruct IH as (l' & E & Hne & J); [discriminate|].
    exists (x :: l'). cbn [iadd_last] in *. rewrite E. cbn [bind].
    repeat split; [discriminate|].
    rewrite !join_cons by (assumption || discriminate).
    now rewrite J, !sapp_assoc.
Qed.

(** ** Closed forms of the two formatters *)

Lemma suffixes_nonempty (w : nat) (l : list byte) :
  l <> [] -> suffixes w l <> [].
Proof. destruct l; [congruence | discriminate]. Qed.

Lemma multiline_closed_form (data : list byte) (name : string) (w : Z) :
  data <> [] -> 0 < w ->
  binary_to_c_array_multiline data name w
  = Ok (join newline
          (("unsigned char " ++ name ++ "[] = {")
           :: List.app (map (hex_line (Z.to_nat w)) (suffixes (Z.to_nat w) data))
                       ["};"; length_comment (List.length data)])).
Proof.
  intros Hne Hw. unfold binary_to_c_array_multiline.
  destruct data as [|b data']; [congruence|].
  set (data := b :: data') in *.
  rewrite range_positive by assumption. cbn [bind]. cbv zeta.
  rewrite (fold_left_list_append
             (fun i => if (i + w <? Z.of_nat (List.length data))%Z
                       then ("    " ++ join ", " (map (fun byte => "0x" ++ format_02X byte)
                                                   (slice data i (i + w)))) ++ ","
                       else "    " ++ join ", " (map (fun byte => "0x" ++ format_02X byte)
                                                  (slice data i (i + w))))).
  unfold list_append. cbn [List.app]. rewrite <- !app_assoc. cbn [List.app].
  do 3 f_equal. f_equal.
  unfold suffixes.
  rewrite <- (suffixes_index (Z.to_nat w)) by lia.
  rewrite !map_map. apply map_ext. intros k.
  rewrite slice_nat by lia. unfold hex_line. rewrite length_skipn.
  destruct (Z.ltb_spec (Z.of_nat (k * Z.to_nat w) + w) (Z.of_nat (List.length data)));
    destruct (Nat.ltb_spec (Z.to_nat w) (List.length data - k * Z.to_nat w));
    try lia; reflexivity.
Qed.

Lemma escaped_closed_form (data : list byte) (name : string) (w : Z) :
  data <> [] -> 0 < w ->
  binary_to_c_array data name w
  = Ok (("unsigned char " ++ name ++ "[] =") ++ newline
        ++ join newline (map (esc_line (Z.to_nat w)) (suffixes (Z.to_nat w) data))
        ++ ";" ++ newline ++ length_comment (List.length data)).
Proof.
  intros Hne Hw. unfold binary_to_c_array.
  destruct data as [|b data']; [congruence|].
  set (data := b :: data') in *.
  rewrite length_map, range_positive by assumption. cbn [bind]. cbv zeta.
  rewrite (fold_left_list_append
             (fun i =>
                if (i =? 0)%Z
                then "    " ++ dquote
                     ++ join EmptyString
                          (slice (map (fun byte => "\x" ++ format_02X byte) data) i (i + w))
                     ++ dquote
                else "    " ++ dquote
                     ++ join EmptyString
                          (slice (map (fun byte => "\x" ++ format_02X byte) data) i (i + w))
                     ++ dquote)).
  unfold list_append. cbn [List.app].
  rewrite map_map.
  rewrite (map_ext _ (fun k => esc_line (Z.to_nat w) (skipn (k * Z.to_nat w) data))).
  2:{ intros k. rewrite slice_nat by lia. rewrite skipn_map, firstn_map.
      unfold esc_line. now destruct (_ =? 0)%Z. }
  rewrite <- (map_map (fun k => skipn (k * Z.to_nat w) data) (esc_line (Z.to_nat w))).
  assert (Hw' : (0 < Z.to_nat w)%nat) by lia.
  rewrite (suffixes_index (Z.to_nat w) Hw' (List.length data) data) by lia.
  fold (suffixes (Z.to_nat w) data).
  pose proof (suffixes_nonempty (Z.to_nat w) data Hne) as Hs.
  set (lines := map (esc_line (Z.to_nat w)) (suffixes (Z.to_nat w) data)).
  assert (Hl : lines <> []) by (subst lines; destruct (suffixes _ _); [congruence | discriminate]).
  destruct (iadd_last_join newline ";" (("unsigned char " ++ name ++ "[] =") :: lines))
    as (l' & E & Hl' & J); [discriminate|].
  rewrite E. cbn [bind]. f_equal.
  rewrite join_snoc by assumption. rewrite J.
  rewrite join_cons by assumption.
  now rewrite !sapp_assoc.
Qed.

(** ** Facts about the readers *)

Lemma occurs_app (c : ascii) (a b : string) :
  occurs c (a ++ b) = occurs c a || occurs c b.
Proof.
  induction a as [|x a IH]; simpl; [reflexivity|].
  now rewrite IH, orb_assoc.
Qed.

Lemma all_in_app (al a b : string) :
  all_in al (a ++ b) = all_in al a && all_in al b.
Proof.
  induction a as [|x a IH]; simpl; [reflexivity|].
  now rewrite IH, andb_assoc.
Qed.

Lemma all_in_occurs (al s : string) (c : ascii) :
  all_in al s = true -> occurs c al = false -> occurs c s = false.
Proof.
  intros Hs Hc. induction s as [|x s IH]; simpl in *; [reflexivity|].
  apply andb_true_iff in Hs. destruct Hs as [Hx Hs].
  rewrite (IH Hs), orb_false_r.
  destruct (Ascii.eqb_spec x c) as [->|]; [congruence | reflexivity].
Qed.

Lemma all_in_join (al sep : string) (l : list string) :
  all_in al sep = true -> Forall (fun s => all_in al s = true) l ->
  all_in al (join sep l) = true.
Proof.
  intros Hsep Hl. induction Hl as [|x l Hx Hl IH]; [reflexivity|].
  destruct l as [|y l]; [exact Hx|].
  rewrite join_cons by discriminate.
  now rewrite !all_in_app, Hx, Hsep, IH.
Qed.

Lemma all_in_uint (al : string) (d : uint) :
  all_in al "0123456789" = true ->
  all_in al (NilEmpty.string_of_uint d) = true.
Proof.
  intros H. cbn [all_in] in H.
  repeat (apply andb_true_iff in H; destruct H as [? H]).
  induction d; cbn [NilEmpty.string_of_uint all_in];
    try reflexivity; apply andb_true_iff; split; assumption.
Qed.

Lemma all_in_str (al : string) (n : nat) :
  all_in al "0123456789" = true -> all_in al (str n) = true.
Proof.
  intros H. unfold str, NilZero.string_of_uint.
  destruct (Nat.to_uint n) eqn:E; try (rewrite <- E; now apply all_in_uint).
  cbn [all_in] in *. apply andb_true_iff in H. destruct H as [H _].
  now rewrite H.
Qed.

Lemma after_last_absent (c : ascii) (s : string) :
  occurs c s = false -> after_last c s = None.
Proof.
  induction s as [|x s IH]; simpl; [reflexivity|].
  intros H. apply orb_false_iff in H. destruct H as [Hx Hs].
  now rewrite (IH Hs), Hx.
Qed.

Lemma after_last_app (c : ascii) (p r : string) :
  occurs c r = false -> after_last c (p ++ String c r) = Some r.
Proof.
  intros Hr. induction p as [|x p IH]; simpl.
  - now rewrite (after_last_absent _ _ Hr), Ascii.eqb_refl.
  - now rewrite IH.
Qed.

Lemma before_first_app (c : ascii) (b r : string) :
  occurs c b = false -> before_first c (b ++ String c r) = Some b.
Proof.
  induction b as [|x b IH]; simpl; intros H.
  - now rewrite Ascii.eqb_refl.
  - apply orb_false_iff in H. destruct H as [Hx Hb].
    now rewrite Hx, (IH Hb).
Qed.

Lemma prefixed_cons (sep tail x : string) (ls : list string) :
  prefixed sep (x :: ls) tail = sep ++ x ++ prefixed sep ls tail.
Proof. reflexivity. Qed.

Lemma join_prefixed (sep tail : string) (ls : list string) :
  ls <> [] -> sep ++ join sep ls ++ tail = prefixed sep ls tail.
Proof.
  induction ls as [|x ls IH]; [congruence|]. intros _.
  destruct ls as [|y ls]; [reflexivity|].
  rewrite join_cons by discriminate. cbn [prefixed fold_right] in *.
  rewrite <- IH by discriminate. now rewrite !sapp_assoc.
Qed.

Lemma split_lines_nonempty (s : string) : split_lines s <> [].
Proof. induction s as [|a s IH]; simpl; [discriminate|].
  destruct (Ascii.eqb a ch_newline); [discriminate|].
  destruct (split_lines s); discriminate.
Qed.

Lemma split_lines_line (l rest : string) :
  occurs ch_newline l = false ->
  split_lines (l ++ newline ++ rest) = l :: split_lines rest.
Proof.
  induction l as [|x l IH]; intros H.
  - reflexivity.
  - simpl in H. apply orb_false_iff in H. destruct H as [Hx Hl].
    cbn [append split_lines]. rewrite Hx. now rewrite (IH Hl).
Qed.

Lemma split_lines_last (l : string) :
  occurs ch_newline l = false -> split_lines l = [l].
Proof.
  induction l as [|x l IH]; intros H; [reflexivity|].
  simpl in H. apply orb_false_iff in H. destruct H as [Hx Hl].
  cbn [split_lines]. now rewrite Hx, (IH Hl).
Qed.

Lemma split_lines_newline (s : string) :
  split_lines (newline ++ s) = EmptyString :: split_lines s.
Proof. reflexivity. Qed.

Lemma split_lines_prefixed (ls : list string) (tail : string) :
  Forall (fun l => occurs ch_newline l = false) ls ->
  split_lines (prefixed newline ls (newline ++ tail))
  = (EmptyString :: ls ++ split_lines tail)%list.
Proof.
  intros H. induction H as [|x ls Hx Hls IH]; [reflexivity|].
  change (prefixed newline (x :: ls) (newline ++ tail))
    with (newline ++ x ++ prefixed newline ls (newline ++ tail)).
  rewrite split_lines_newline. cbn [List.app]. f_equal.
  destruct ls as [|y ls].
  - cbn [prefixed fold_right]. now apply split_lines_line.
  - change (prefixed newline (y :: ls) (newline ++ tail))
      with (newline ++ y ++ prefixed newline ls (newline ++ tail)) in *.
    rewrite split_lines_line by assumption.
    rewrite split_lines_newline in IH. injection IH as IH.
    f_equal. exact IH.
Qed.

(** ** Tokens *)

Lemma format_02X_hex (b : byte) :
  exists h l, format_02X b = String h (String l EmptyString)
              /\ byte_of_hex h l = Some b.
Proof. destruct b; do 2 eexists; split; reflexivity. Qed.

Lemma format_02X_alphabet (al : string) (b : byte) :
  all_in al "0123456789ABCDEF" = true -> all_in al (format_02X b) = true.
Proof.
  intros H. cbn [all_in] in H.
  repeat (apply andb_true_iff in H; destruct H as [? H]).
  destruct b; cbn; apply andb_true_iff; split;
    try assumption; apply andb_true_iff; split; try assumption; reflexivity.
Qed.

Lemma occurs_prefixed (c : ascii) (sep tail : string) (ls : list string) :
  occurs c sep = false -> Forall (fun l => occurs c l = false) ls ->
  occurs c tail = false -> occurs c (prefixed sep ls tail) = false.
Proof.
  intros Hsep Hls Ht. induction Hls as [|x ls Hx Hls IH]; [exact Ht|].
  rewrite prefixed_cons. now rewrite !occurs_app, Hsep, Hx, IH.
Qed.

Lemma prefixed_tail (sep t1 t2 : string) (ls : list string) :
  prefixed sep ls (t1 ++ t2) = prefixed sep ls t1 ++ t2.
Proof.
  induction ls as [|x ls IH]; [reflexivity|].
  rewrite !prefixed_cons. now rewrite IH, !sapp_assoc.
Qed.

Lemma hex_line_alphabet (w : nat) (s : list byte) :
  all_in hex_alphabet (hex_line w s) = true.
Proof.
  unfold hex_line.
  assert (H : all_in hex_alphabet ("    " ++ join ", " (map hex_token (firstn w s))) = true).
  { rewrite all_in_app. apply andb_true_iff. split; [reflexivity|].
    apply all_in_join; [reflexivity|].
    apply Forall_forall. intros t Ht. apply in_map_iff in Ht.
    destruct Ht as (b & <- & _). unfold hex_token.
    rewrite all_in_app. apply andb_true_iff. split; [reflexivity|].
    now apply format_02X_alphabet. }
  destruct (w <? List.length s)%nat; [|exact H].
  now rewrite all_in_app, H.
Qed.

Lemma esc_line_alphabet (w : nat) (s : list byte) :
  all_in esc_alphabet (esc_line w s) = true.
Proof.
  unfold esc_line. rewrite !all_in_app.
  repeat (apply andb_true_iff; split); try reflexivity.
  apply all_in_join; [reflexivity|].
  apply Forall_forall. intros t Ht. apply in_map_iff in Ht.
  destruct Ht as (b & <- & _). unfold esc_token.
  rewrite all_in_app. apply andb_true_iff. split; [reflexivity|].
  now apply format_02X_alphabet.
Qed.

Lemma length_comment_alphabet (n : nat) :
  all_in comment_alphabet (length_comment n) = true.
Proof.
  unfold length_comment. rewrite !all_in_app.
  repeat (apply andb_true_iff; split); try reflexivity.
  now apply all_in_str.
Qed.

(** ** Shape of the hex-array output *)

Lemma hex_lines_clean (c : ascii) (w : nat) (data : list byte) :
  occurs c hex_alphabet = false ->
  Forall (fun l => occurs c l = false) (hex_lines w data).
Proof.
  intros Hc. apply Forall_forall. intros l Hl. apply in_map_iff in Hl.
  destruct Hl as (s & <- & _).
  exact (all_in_occurs _ _ _ (hex_line_alphabet w s) Hc).
Qed.

Lemma multiline_text (data : list byte) (name : string) (w : Z) :
  data <> [] -> 0 < w ->
  binary_to_c_array_multiline data name w
  = Ok (("unsigned char " ++ name ++ "[] = ")
        ++ String "{" (prefixed newline (hex_lines (Z.to_nat w) data) newline
                       ++ String "}" (";" ++ newline
                                      ++ length_comment (List.length data)))).
Proof.
  intros Hne Hw. rewrite multiline_closed_form by assumption. f_equal.
  fold (hex_lines (Z.to_nat w) data).
  assert (Hl : hex_lines (Z.to_nat w) data <> []).
  { unfold hex_lines. pose proof (suffixes_nonempty (Z.to_nat w) data Hne).
    destruct (suffixes _ _); [congruence | discriminate]. }
  set (lines := hex_lines (Z.to_nat w) data) in *.
  set (c := length_comment (List.length data)).
  rewrite join_cons by (destruct lines; discriminate).
  change ["};"; c] with (List.app ["};"] [c]).
  rewrite app_assoc, join_snoc by (destruct lines; discriminate).
  rewrite join_snoc by assumption.
  rewrite <- prefixed_tail, <- join_prefixed by assumption.
  rewrite !sapp_assoc. reflexivity.
Qed.

Lemma multiline_brace_body (data : list byte) (name : string) (w : Z) :
  data <> [] -> 0 < w ->
  exists out, binary_to_c_array_multiline data name w = Ok out
    /\ brace_body out = Some (prefixed newline (hex_lines (Z.to_nat w) data) newline).
Proof.
  intros Hne Hw. eexists. split; [now apply multiline_text|].
  unfold brace_body.
  rewrite after_last_app.
  - apply before_first_app.
    apply occurs_prefixed; try reflexivity. now apply hex_lines_clean.
  - rewrite occurs_app. apply orb_false_iff. split.
    + apply occurs_prefixed; try reflexivity. now apply hex_lines_clean.
    + cbn [occurs]. rewrite !occurs_app.
      rewrite (all_in_occurs _ _ _ (length_comment_alphabet _)) by reflexivity.
      reflexivity.
Qed.

Lemma multiline_value_lines (data : list byte) (name : string) (w : Z) :
  data <> [] -> 0 < w ->
  exists out, binary_to_c_array_multiline data name w = Ok out
    /\ value_lines out = hex_lines (Z.to_nat w) data.
Proof.
  intros Hne Hw.
  destruct (multiline_brace_body data name w Hne Hw) as (out & E & B).
  exists out. split; [exact E|].
  unfold value_lines. rewrite B.
  change newline with (newline ++ EmptyString) at 2.
  rewrite split_lines_prefixed by (now apply hex_lines_clean).
  cbn [tl split_lines]. apply removelast_last.
Qed.

(** ** Round trip of the hex-array style *)

Lemma strip_blanks_app (a b : string) :
  strip_blanks (a ++ b) = strip_blanks a ++ strip_blanks b.
Proof.
  induction a as [|x a IH]; [reflexivity|].
  cbn [append strip_blanks]. rewrite IH. now destruct (is_blank x).
Qed.

Lemma strip_blanks_hex_token (b : byte) : strip_blanks (hex_token b) = hex_token b.
Proof. destruct b; reflexivity. Qed.

Lemma strip_blanks_tokens (l : list byte) :
  strip_blanks (join ", " (map hex_token l)) = items l.
Proof.
  unfold items. induction l as [|b l IH]; [reflexivity|].
  destruct l as [|c l]; [apply strip_blanks_hex_token|].
  cbn [map] in *. rewrite !join_cons by discriminate.
  now rewrite !strip_blanks_app, strip_blanks_hex_token, IH.
Qed.

Lemma strip_blanks_hex_line (w : nat) (s : list byte) :
  strip_blanks (hex_line w s)
  = items (firstn w s) ++ (if (w <? List.length s)%nat then "," else EmptyString).
Proof.
  unfold hex_line. destruct (w <? List.length s)%nat.
  - now rewrite !strip_blanks_app, strip_blanks_tokens.
  - now rewrite strip_blanks_app, strip_blanks_tokens, sapp_nil_r.
Qed.

Lemma strip_blanks_prefixed (ls : list string) :
  strip_blanks (prefixed newline ls newline)
  = fold_right (fun l acc => strip_blanks l ++ acc) EmptyString ls.
Proof.
  induction ls as [|x ls IH]; [reflexivity|].
  rewrite prefixed_cons, !strip_blanks_app, IH. reflexivity.
Qed.

Lemma items_app (a b : list byte) :
  a <> [] -> b <> [] -> items (a ++ b) = items a ++ "," ++ items b.
Proof.
  unfold items. induction a as [|x a IH]; [congruence|]. intros _ Hb.
  destruct a as [|y a].
  - cbn [List.app map]. apply join_cons. destruct b; [congruence | discriminate].
  - change (map hex_token ((x :: y :: a) ++ b))
      with (hex_token x :: map hex_token ((y :: a) ++ b)).
    rewrite join_cons by discriminate.
    rewrite IH by (discriminate || assumption).
    cbn [map]. rewrite (join_cons _ (hex_token x)) by discriminate.
    now rewrite !sapp_assoc.
Qed.

Lemma suffixes_aux_nil {A : Type} (fuel w : nat) :
  suffixes_aux fuel w (@nil A) = [].
Proof. destruct fuel; reflexivity. Qed.

Lemma suffixes_aux_cons {A : Type} (fuel w : nat) (l : list A) :
  l <> [] -> suffixes_aux (S fuel) w l = l :: suffixes_aux fuel w (skipn w l).
Proof. destruct l; [congruence | reflexivity]. Qed.

Lemma stripped_lines_items (w : nat) (Hw : (0 < w)%nat) (fuel : nat) :
  forall l : list byte, (List.length l <= fuel)%nat ->
  fold_right (fun x acc => strip_blanks x ++ acc) EmptyString
             (map (hex_line w) (suffixes_aux fuel w l))
  = items l.
Proof.
  induction fuel as [|f IH]; intros l Hl.
  - destruct l; [reflexivity | simpl in Hl; lia].
  - destruct (list_eq_dec Byte.byte_eq_dec l []) as [->|Hne]; [reflexivity|].
    assert (Hpos : (0 < List.length l)%nat)
      by (destruct l; [congruence | simpl; lia]).
    assert (Hlen : List.length (skipn w l) = (List.length l - w)%nat)
      by apply length_skipn.
    rewrite suffixes_aux_cons by assumption. cbn [map fold_right].
    rewrite IH by lia.
    rewrite strip_blanks_hex_line.
    destruct (Nat.ltb_spec w (List.length l)) as [Hlt|Hge].
    + rewrite <- (firstn_skipn w l) at 3.
      rewrite items_app, !sapp_assoc; [reflexivity| |].
      * intros E. apply (f_equal (@List.length byte)) in E.
        rewrite length_firstn in E. simpl in E. lia.
      * intros E. rewrite E in Hlen. simpl in Hlen. lia.
    + rewrite firstn_all2 by lia.
      rewrite skipn_all2 by lia.
      change (items []) with EmptyString. now rewrite !sapp_nil_r.
Qed.

Lemma parse_items_items (l : list byte) :
  l <> [] -> parse_items (items l) = Some l.
Proof.
  unfold items. induction l as [|b l IH]; [congruence|]. intros _.
  destruct (format_02X_hex b) as (h & d & E & V).
  destruct l as [|c l].
  - cbn [map join concat]. unfold hex_token. rewrite E.
    cbn [append parse_items]. now rewrite V.
  - cbn [map] in *. rewrite join_cons by discriminate.
    unfold hex_token at 1. rewrite E.
    cbn [append parse_items]. rewrite V.
    now rewrite IH by discriminate.
Qed.

(** ** Lines of the hex-array output *)

Lemma chunk_count_ceil (n : nat) (w : Z) :
  0 < w ->
  Z.of_nat (chunk_count n (Z.to_nat w)) = (Z.of_nat n + w - 1) / w.
Proof.
  intros Hw. destruct n as [|p].
  - cbn [chunk_count]. rewrite Z.div_small; lia.
  - cbn [chunk_count]. rewrite Nat2Z.inj_succ, Nat2Z.inj_div, Z2Nat.id by lia.
    replace (Z.of_nat (S p) + w - 1) with (Z.of_nat p + 1 * w) by lia.
    rewrite Z.div_add by lia. lia.
Qed.

Lemma chunk_count_bounds (n w : nat) :
  (0 < w)%nat -> (0 < n)%nat ->
  ((chunk_count n w - 1) * w < n <= chunk_count n w * w)%nat.
Proof.
  intros Hw Hn. destruct n as [|p]; [lia|]. cbn [chunk_count].
  pose proof (Nat.div_mod_eq p w) as E.
  pose proof (Nat.mod_upper_bound p w ltac:(lia)) as B.
  nia.
Qed.

Lemma hex_lines_nth (w : nat) (data : list byte) (i : nat) (line : string) :
  (0 < w)%nat -> nth_error (hex_lines w data) i = Some line ->
  line = hex_line w (skipn (i * w) data)
  /\ (i < chunk_count (List.length data) w)%nat.
Proof.
  intros Hw. unfold hex_lines, suffixes.
  rewrite <- (suffixes_index w Hw (List.length data) data) by lia.
  rewrite !nth_error_map, nth_error_seq.
  destruct (Nat.ltb_spec i (chunk_count (List.length data) w)); [|discriminate].
  cbn. intros [= <-]. now split.
Qed.

Lemma hex_lines_length (w : nat) (data : list byte) :
  (0 < w)%nat -> List.length (hex_lines w data) = chunk_count (List.length data) w.
Proof.
  intros Hw. unfold hex_lines. now rewrite length_map, suffixes_length.
Qed.

Lemma count_tokens_token_end (b : byte) : count_tokens (hex_token b) = 1%nat.
Proof. destruct b; reflexivity. Qed.

Lemma count_tokens_token_comma (b : byte) (r : string) :
  count_tokens (hex_token b ++ String "," r) = S (count_tokens r).
Proof. destruct b; reflexivity. Qed.

Lemma count_tokens_tokens (c : list byte) (tail : string) :
  tail = EmptyString \/ tail = "," ->
  count_tokens (join ", " (map hex_token c) ++ tail)
  = (List.length c + count_tokens tail)%nat.
Proof.
  intros Ht. induction c as [|b c IH]; [reflexivity|].
  destruct c as [|b' c].
  - cbn [map join concat List.length].
    destruct Ht as [-> | ->].
    + now rewrite sapp_nil_r, count_tokens_token_end.
    + now rewrite count_tokens_token_comma.
  - cbn [map] in *. rewrite join_cons by discriminate.
    rewrite !sapp_assoc.
    change (", " ++ join ", " (hex_token b' :: map hex_token c) ++ tail)
      with (String "," (String " " (join ", " (hex_token b' :: map hex_token c) ++ tail))).
    rewrite count_tokens_token_comma.
    change (count_tokens (String " " ?s)) with (count_tokens s).
    cbn [count_tokens token_at Nat.add].
    rewrite IH. reflexivity.
Qed.

Lemma count_tokens_hex_line (w : nat) (s : list byte) :
  count_tokens (hex_line w s) = Nat.min w (List.length s).
Proof.
  unfold hex_line.
  assert (H : forall tail, tail = EmptyString \/ tail = "," ->
            count_tokens ("    " ++ join ", " (map hex_token (firstn w s)) ++ tail)
            = (Nat.min w (List.length s) + count_tokens tail)%nat).
  { intros tail Ht.
    change (count_tokens ("    " ++ ?x)) with (count_tokens x).
    cbn [append count_tokens token_at Nat.add].
    now rewrite count_tokens_tokens, length_firstn. }
  destruct (w <? List.length s)%nat.
  - rewrite sapp_assoc, H by now right. cbn. lia.
  - rewrite <- (sapp_nil_r (_ ++ _)), sapp_assoc, H by now left. cbn. lia.
Qed.

Lemma count_tokens_sum (w : nat) (Hw : (0 < w)%nat) (fuel : nat) :
  forall l : list byte, (List.length l <= fuel)%nat ->
  list_sum (map count_tokens (map (hex_line w) (suffixes_aux fuel w l)))
  = List.length l.
Proof.
  induction fuel as [|f IH]; intros l Hl.
  - destruct l; [reflexivity | simpl in Hl; lia].
  - destruct (list_eq_dec Byte.byte_eq_dec l []) as [->|Hne]; [reflexivity|].
    assert (Hlen : List.length (skipn w l) = (List.length l - w)%nat)
      by apply length_skipn.
    assert (Hpos : (0 < List.length l)%nat)
      by (destruct l; [congruence | simpl; lia]).
    rewrite suffixes_aux_cons by assumption. cbn [map list_sum fold_right].
    change (fold_right Nat.add O ?x) with (list_sum x).
    rewrite IH by lia. rewrite count_tokens_hex_line. lia.
Qed.

Lemma last_char_snoc (a : string) (c : ascii) :
  last_char (a ++ String c EmptyString) = Some c.
Proof.
  induction a as [|x a IH]; [reflexivity|].
  cbn [append last_char]. destruct (a ++ String c EmptyString) eqn:E; [|exact IH].
  destruct a; discriminate.
Qed.

Lemma last_char_app (a b : string) :
  b <> EmptyString -> last_char (a ++ b) = last_char b.
Proof.
  intros Hb. induction a as [|x a IH]; [reflexivity|].
  cbn [append last_char]. destruct (a ++ b) eqn:E; [|exact IH].
  destruct a, b; discriminate || congruence.
Qed.

Lemma last_char_token (b : byte) : last_char (hex_token b) <> Some ","%char.
Proof. destruct b; discriminate. Qed.

Lemma last_char_tokens (c : list byte) :
  last_char (join ", " (map hex_token c)) <> Some ","%char.
Proof.
  induction c as [|b c IH]; [discriminate|].
  destruct c as [|b' c]; [apply last_char_token|].
  cbn [map] in *. rewrite join_cons by discriminate.
  rewrite last_char_app by discriminate.
  change (", " ++ ?s) with (String "," (String " " s)).
  cbn [last_char].
  destruct (join ", " (hex_token b' :: map hex_token c)); [discriminate | exact IH].
Qed.

Lemma last_char_hex_line (w : nat) (s : list byte) :
  last_char (hex_line w s) = Some ","%char <-> (w < List.length s)%nat.
Proof.
  unfold hex_line. destruct (Nat.ltb_spec w (List.length s)) as [Hlt|Hge].
  - split; [intros _; exact Hlt | intros _; apply last_char_snoc].
  - split; [|lia]. intros H. exfalso.
    destruct (join ", " (map hex_token (firstn w s))) eqn:E.
    + discriminate H.
    + rewrite last_char_app in H by discriminate.
      rewrite <- E in H. now apply last_char_tokens in H.
Qed.

(** ** Shape of the escaped-string output *)

Lemma esc_lines_clean (c : ascii) (w : nat) (data : list byte) :
  occurs c esc_alphabet = false ->
  Forall (fun l => occurs c l = false) (esc_lines w data).
Proof.
  intros Hc. apply Forall_forall. intros l Hl. apply in_map_iff in Hl.
  destruct Hl as (s & <- & _).
  exact (all_in_occurs _ _ _ (esc_line_alphabet w s) Hc).
Qed.

Lemma escaped_text (data : list byte) (name : string) (w : Z) :
  data <> [] -> 0 < w ->
  binary_to_c_array data name w
  = Ok (("unsigned char " ++ name ++ "[] ")
        ++ String "=" (prefixed newline (esc_lines (Z.to_nat w) data) EmptyString
                       ++ String ";" (newline ++ length_comment (List.length data)))).
Proof.
  intros Hne Hw. rewrite escaped_closed_form by assumption. f_equal.
  fold (esc_lines (Z.to_nat w) data).
  assert (Hl : esc_lines (Z.to_nat w) data <> []).
  { unfold esc_lines. pose proof (suffixes_nonempty (Z.to_nat w) data Hne).
    destruct (suffixes _ _); [congruence | discriminate]. }
  rewrite <- (join_prefixed newline EmptyString) by assumption.
  rewrite !sapp_assoc. reflexivity.
Qed.

Lemma escapes_cons (b : byte) (l : list byte) :
  escapes (b :: l) = esc_token b ++ escapes l.
Proof.
  unfold escapes. destruct l as [|c l].
  - cbn [map join concat]. now rewrite sapp_nil_r.
  - cbn [map]. now rewrite join_cons by discriminate.
Qed.

Lemma escapes_app (a b : list byte) : escapes (a ++ b) = escapes a ++ escapes b.
Proof.
  induction a as [|x a IH]; [reflexivity|].
  cbn [List.app]. now rewrite !escapes_cons, IH, sapp_assoc.
Qed.

Lemma escapes_no_quote (l : list byte) : occurs ch_dquote (escapes l) = false.
Proof.
  induction l as [|b l IH]; [reflexivity|].
  rewrite escapes_cons, occurs_app, IH, orb_false_r.
  destruct b; reflexivity.
Qed.

Lemma parse_escapes_escapes (l : list byte) : parse_escapes (escapes l) = Some l.
Proof.
  induction l as [|b l IH]; [reflexivity|].
  rewrite escapes_cons. unfold esc_token.
  destruct (format_02X_hex b) as (h & d & E & V). rewrite E.
  cbn [append parse_escapes]. now rewrite V, IH.
Qed.

Lemma literal_contents_inside (body rest : string) :
  occurs ch_dquote body = false ->
  literal_contents true (body ++ dquote ++ rest)
  = option_map (append body) (literal_contents false rest).
Proof.
  induction body as [|x body IH]; intros H.
  - cbn. now destruct (literal_contents false rest).
  - simpl in H. apply orb_false_iff in H. destruct H as [Hx Hb].
    cbn [append literal_contents]. rewrite Hx, (IH Hb).
    now destruct (literal_contents false rest).
Qed.

Lemma literal_contents_line (w : nat) (s : list byte) (rest : string) :
  literal_contents false (newline ++ esc_line w s ++ rest)
  = option_map (append (escapes (firstn w s))) (literal_contents false rest).
Proof.
  unfold esc_line. fold (escapes (firstn w s)).
  rewrite !sapp_assoc.
  change (literal_contents false (newline ++ "    " ++ dquote ++ ?x))
    with (literal_contents true x).
  apply literal_contents_inside, escapes_no_quote.
Qed.

Lemma literal_contents_lines (w : nat) (sufs : list (list byte)) :
  literal_contents false (prefixed newline (map (esc_line w) sufs) EmptyString)
  = Some (escapes (flat_map (firstn w) sufs)).
Proof.
  induction sufs as [|s sufs IH]; [reflexivity|].
  cbn [map flat_map]. rewrite prefixed_cons, literal_contents_line, IH.
  cbn [option_map]. now rewrite escapes_app.
Qed.

Lemma flat_map_suffixes (w fuel : nat) :
  forall l : list byte, (List.length l <= fuel)%nat -> (0 < w)%nat ->
  flat_map (firstn w) (suffixes_aux fuel w l) = l.
Proof.
  induction fuel as [|f IH]; intros l Hl Hw.
  - destruct l; [reflexivity | simpl in Hl; lia].
  - destruct (list_eq_dec Byte.byte_eq_dec l []) as [->|Hne]; [reflexivity|].
    assert (Hpos : (0 < List.length l)%nat)
      by (destruct l; [congruence | simpl; lia]).
    rewrite suffixes_aux_cons by assumption. cbn [flat_map].
    rewrite IH by (rewrite ?length_skipn; lia).
    apply firstn_skipn.
Qed.

Lemma split_lines_app (a b : string) :
  split_lines (a ++ newline ++ b) = (split_lines a ++ split_lines b)%list.
Proof.
  induction a as [|x a IH]; [reflexivity|].
  cbn [append split_lines]. rewrite IH.
  destruct (Ascii.eqb x ch_newline); [reflexivity|].
  pose proof (split_lines_nonempty a).
  destruct (split_lines a); [congruence | reflexivity].
Qed.

(** * Worked examples

    The sample outputs of the documentation, evaluated on the embedding. *)

Example hex_array_elf_header :
  binary_to_c_array_multiline [x7f; x45; x4c; x46]%byte "buf" 2
  = Ok ("unsigned char buf[] = {" ++ newline
        ++ "    0x7F, 0x45," ++ newline
        ++ "    0x4C, 0x46" ++ newline
        ++ "};" ++ newline
        ++ "/* Length: 4 bytes */").
Proof. reflexivity. Qed.

Example escaped_elf_header :
  binary_to_c_array [x7f; x45; x4c; x46]%byte "buf" 12
  = Ok ("unsigned char buf[] =" ++ newline
        ++ "    " ++ dquote ++ "\x7F\x45\x4C\x46" ++ dquote ++ ";" ++ newline
        ++ "/* Length: 4 bytes */").
Proof. reflexivity. Qed.

Example escaped_two_lines :
  on_ok split_lines (binary_to_c_array [x7f; x45; x4c; x46]%byte "buf" 3)
  = Some ["unsigned char buf[] =";
          "    " ++ dquote ++ "\x7F\x45\x4C" ++ dquote;
          "    " ++ dquote ++ "\x46" ++ dquote ++ ";";
          "/* Length: 4 bytes */"].
Proof. reflexivity. Qed.

(** A negative width makes [range] empty: no chunk is written at all. *)
Example escaped_negative_width :
  binary_to_c_array [x7f; x45]%byte "buf" (-1)
  = Ok ("unsigned char buf[] =;" ++ newline ++ "/* Length: 2 bytes */").
Proof. reflexivity. Qed.

(** * The claims *)

(** ** C1: hex-array style, empty input *)

(** C1 as stated does not hold: for the empty byte sequence
    [binary_to_c_array_multiline] returns from its guard before any length
    comment is appended, so the result for name [buf] and width 12 is not
    the two-line text with [/* Length: 0 bytes */]. *)
Lemma hex_array_empty_without_length_comment :
  binary_to_c_array_multiline [] "buf" 12
  <> Ok ("unsigned char buf[] = {};" ++ newline ++ "/* Length: 0 bytes */").
Proof. intros H. vm_compute in H. discriminate H. Qed.

(** C1 amended: for the empty byte sequence the hex-array formatter returns
    exactly [unsigned char <name>[] = {};] and nothing else, for every name
    and width; for a non-empty byte sequence and a positive width the last
    line of the output is the length comment [/* Length: <N> bytes */]. *)
Theorem hex_array_length_comment (D : list byte) (name : string) (W : Z) :
  binary_to_c_array_multiline [] name W = Ok ("unsigned char " ++ name ++ "[] = {};")
  /\ (D <> [] -> 0 < W ->
      exists out, binary_to_c_array_multiline D name W = Ok out
        /\ last (split_lines out) EmptyString
           = "/* Length: " ++ str (List.length D) ++ " bytes */").
Proof.
  split; [reflexivity|]. intros Hne Hw.
  eexists. split; [now apply multiline_closed_form|].
  set (lines := map _ _).
  change ["};"; ?c] with (List.app ["};"] [c]).
  rewrite app_assoc, app_comm_cons.
  rewrite join_snoc by discriminate.
  rewrite split_lines_app.
  rewrite (split_lines_last (length_comment _)).
  - apply last_last.
  - apply (all_in_occurs _ _ _ (length_comment_alphabet _)). reflexivity.
Qed.

Lemma hex_array_length_comment_witness :
  [x7f; x45; x4c; x46]%byte <> [] /\ 0 < 2 /\
  exists out, binary_to_c_array_multiline [x7f; x45; x4c; x46]%byte "buf" 2 = Ok out
    /\ last (split_lines out) EmptyString = "/* Length: " ++ str 4 ++ " bytes */".
Proof.
  split; [discriminate|]. split; [lia|].
  apply (proj2 (hex_array_length_comment [x7f; x45; x4c; x46]%byte "buf" 2));
    [discriminate | lia].
Defined.

(** ** C2: escaped-string style, first line *)

(** C2 as stated does not hold: for the single byte 0x7F, name [buf] and
    width 12 the first line is the header alone; the escape [\x7F] stands
    on the second line. *)
Lemma escaped_first_line_lacks_first_chunk :
  ~ header_and_first_chunk_on_first_line [x7f]%byte "buf" 12.
Proof.
  intros (out & E & _ & H). vm_compute in E. injection E as <-.
  vm_compute in H. discriminate H.
Qed.

Lemma suffixes_head (w : nat) (D : list byte) :
  D <> [] -> (0 < w)%nat ->
  exists rest, suffixes w D = D :: rest
    /\ (rest = [] <-> (List.length D <= w)%nat).
Proof.
  intros Hne Hw. unfold suffixes.
  destruct D as [|b D']; [congruence|].
  cbn [List.length]. rewrite suffixes_aux_cons by discriminate.
  eexists. split; [reflexivity|].
  pose proof (length_skipn w (b :: D')) as Hlen. cbn [List.length] in Hlen.
  destruct (Nat.le_gt_cases (S (List.length D')) w) as [Hle|Hgt].
  - rewrite skipn_all2 by (cbn [List.length]; lia).
    rewrite suffixes_aux_nil. tauto.
  - split; [|lia]. intros E. exfalso.
    destruct (List.length D') as [|f] eqn:EL; [lia|].
    rewrite suffixes_aux_cons in E; [discriminate|].
    intros Z0. rewrite Z0 in Hlen. cbn [List.length] in Hlen. lia.
Qed.

(** C2 amended: for every non-empty byte sequence, positive width and name
    without a line break, the first line of the escaped-string output is the
    header [unsigned char <name>[] =] alone, and the second line holds the
    first chunk: four spaces and the quoted [\xHH] escapes of the first
    [W] bytes, followed by [;] when that chunk is the only one. *)
Theorem escaped_header_then_first_chunk (D : list byte) (name : string) (W : Z) :
  D <> [] -> 0 < W -> occurs ch_newline name = false ->
  exists out, binary_to_c_array D name W = Ok out
    /\ nth_error (split_lines out) 0 = Some ("unsigned char " ++ name ++ "[] =")
    /\ nth_error (split_lines out) 1
       = Some ("    " ++ dquote ++ escapes (firstn (Z.to_nat W) D) ++ dquote
               ++ (if (Z.of_nat (List.length D) <=? W)%Z then ";" else EmptyString)).
Proof.
  intros Hne Hw Hname.
  eexists. split; [now apply escaped_closed_form|].
  assert (Hh : occurs ch_newline ("unsigned char " ++ name ++ "[] =") = false)
    by now rewrite !occurs_app, Hname.
  rewrite split_lines_line by exact Hh.
  split; [reflexivity|]. cbn [nth_error].
  destruct (suffixes_head (Z.to_nat W) D Hne ltac:(lia)) as (rest & -> & Hrest).
  assert (Hl : occurs ch_newline (esc_line (Z.to_nat W) D) = false)
    by (apply (all_in_occurs _ _ _ (esc_line_alphabet _ _)); reflexivity).
  destruct rest as [|s rest]; cbn [map].
  - destruct (Z.leb_spec (Z.of_nat (List.length D)) W) as [_|Hgt];
      [|exfalso; pose proof (proj1 Hrest eq_refl); lia].
    cbn [join concat]. rewrite <- sapp_assoc.
    rewrite split_lines_line by now rewrite occurs_app, Hl.
    unfold esc_line. fold (escapes (firstn (Z.to_nat W) D)).
    now rewrite !sapp_assoc.
  - destruct (Z.leb_spec (Z.of_nat (List.length D)) W) as [Hle|_];
      [exfalso; assert (s :: rest = []) by (apply Hrest; lia); discriminate|].
    rewrite join_cons by discriminate. rewrite !sapp_assoc.
    rewrite split_lines_line by exact Hl.
    unfold esc_line. fold (escapes (firstn (Z.to_nat W) D)).
    now rewrite !sapp_nil_r.
Qed.

Lemma escaped_header_then_first_chunk_witness :
  [x7f; x45; x4c; x46]%byte <> [] /\ 0 < 12 /\ occurs ch_newline "buf" = false /\
  exists out, binary_to_c_array [x7f; x45; x4c; x46]%byte "buf" 12 = Ok out
    /\ nth_error (split_lines out) 0 = Some ("unsigned char " ++ "buf" ++ "[] =")
    /\ nth_error (split_lines out) 1
       = Some ("    " ++ dquote
               ++ escapes (firstn (Z.to_nat 12) [x7f; x45; x4c; x46]%byte) ++ dquote
               ++ (if (Z.of_nat (List.length [x7f; x45; x4c; x46]%byte) <=? 12)%Z
                   then ";" else EmptyString)).
Proof.
  split; [discriminate|]. split; [lia|]. split; [reflexivity|].
  apply (escaped_header_then_first_chunk [x7f; x45; x4c; x46]%byte "buf" 12);
    [discriminate | lia | reflexivity].
Defined.

(** ** C3: round trip of the hex-array style *)

(** C3: for every byte sequence [D], name and positive width [W], the
    hex-array formatter returns a text whose comma-separated [0xHH] tokens,
    read back in order, are exactly [D]. *)
Theorem hex_array_round_trip (D : list byte) (name : string) (W : Z) :
  0 < W ->
  exists out, binary_to_c_array_multiline D name W = Ok out
    /\ parse_hex_array out = Some D.
Proof.
  intros Hw.
  destruct (list_eq_dec Byte.byte_eq_dec D []) as [->|Hne].
  - eexists. split; [reflexivity|].
    unfold parse_hex_array, brace_body.
    replace ("unsigned char " ++ name ++ "[] = {};")
      with (("unsigned char " ++ name ++ "[] = ") ++ String "{" "};")
      by (now rewrite !sapp_assoc).
    rewrite after_last_app by reflexivity. reflexivity.
  - destruct (multiline_brace_body D name W Hne Hw) as (out & E & B).
    exists out. split; [exact E|].
    unfold parse_hex_array. rewrite B, strip_blanks_prefixed.
    unfold hex_lines, suffixes.
    rewrite stripped_lines_items by lia.
    pose proof (parse_items_items D Hne) as P.
    destruct (items D); [discriminate P | exact P].
Qed.

Lemma hex_array_round_trip_witness :
  0 < 2 /\
  exists out, binary_to_c_array_multiline [x7f; x45; x4c; x46; x00]%byte "buf" 2 = Ok out
    /\ parse_hex_array out = Some [x7f; x45; x4c; x46; x00]%byte.
Proof.
  split; [lia|].
  apply (hex_array_round_trip [x7f; x45; x4c; x46; x00]%byte "buf" 2). lia.
Defined.

(** ** C4: round trip of the escaped-string style *)

(** C4: for every byte sequence [D], name and positive width [W], the
    escaped-string formatter returns a text whose [\xHH] escapes, read back
    after the quotes and the line structure are stripped, are exactly [D]. *)
Theorem escaped_round_trip (D : list byte) (name : string) (W : Z) :
  0 < W ->
  exists out, binary_to_c_array D name W = Ok out
    /\ parse_escaped out = Some D.
Proof.
  intros Hw.
  destruct (list_eq_dec Byte.byte_eq_dec D []) as [->|Hne].
  - eexists. split; [reflexivity|].
    unfold parse_escaped.
    replace ("unsigned char " ++ name ++ "[] = " ++ dquote ++ dquote ++ ";")
      with (("unsigned char " ++ name ++ "[] ") ++ String "=" (" " ++ dquote ++ dquote ++ ";"))
      by (now rewrite !sapp_assoc).
    rewrite after_last_app by reflexivity. reflexivity.
  - eexists. split; [now apply escaped_text|].
    unfold parse_escaped.
    rewrite after_last_app.
    + rewrite before_first_app.
      * unfold esc_lines, suffixes. rewrite literal_contents_lines.
        rewrite flat_map_suffixes by lia. apply parse_escapes_escapes.
      * apply occurs_prefixed; try reflexivity. now apply esc_lines_clean.
    + rewrite occurs_app. apply orb_false_iff. split.
      * apply occurs_prefixed; try reflexivity. now apply esc_lines_clean.
      * cbn [occurs]. rewrite occurs_app.
        rewrite (all_in_occurs _ _ _ (length_comment_alphabet _)) by reflexivity.
        reflexivity.
Qed.

Lemma escaped_round_trip_witness :
  0 < 2 /\
  exists out, binary_to_c_array [x7f; x45; x4c; x46; x00]%byte "buf" 2 = Ok out
    /\ parse_escaped out = Some [x7f; x45; x4c; x46; x00]%byte.
Proof.
  split; [lia|].
  apply (escaped_round_trip [x7f; x45; x4c; x46; x00]%byte "buf" 2). lia.
Defined.

(** ** C5: number of value lines and of tokens, hex-array style *)

(** C5: for every non-empty byte sequence [D] and positive width [W], the
    hex-array output has exactly [ceil (len D / W)] value lines between the
    line of the opening brace and the line of the closing brace; every
    value line but the last holds [W] tokens, the last one between 1 and
    [W]; and the value lines hold [len D] tokens [0xHH] in total. *)
Theorem hex_array_value_lines (D : list byte) (name : string) (W : Z) :
  D <> [] -> 0 < W ->
  exists out, binary_to_c_array_multiline D name W = Ok out
    /\ Z.of_nat (List.length (value_lines out)) = (Z.of_nat (List.length D) + W - 1) / W
    /\ (forall i line, nth_error (value_lines out) i = Some line ->
          if (S i <? List.length (value_lines out))%nat
          then Z.of_nat (count_tokens line) = W
          else 1 <= Z.of_nat (count_tokens line) <= W)
    /\ list_sum (map count_tokens (value_lines out)) = List.length D.
Proof.
  intros Hne Hw.
  destruct (multiline_value_lines D name W Hne Hw) as (out & E & V).
  exists out. split; [exact E|]. rewrite V.
  assert (Hw' : (0 < Z.to_nat W)%nat) by lia.
  assert (Hn : (0 < List.length D)%nat) by (destruct D; [congruence | simpl; lia]).
  pose proof (chunk_count_bounds (List.length D) (Z.to_nat W) Hw' Hn) as B.
  rewrite hex_lines_length by assumption.
  split; [now apply chunk_count_ceil|]. split.
  - intros i line Hi.
    apply hex_lines_nth in Hi; [|assumption]. destruct Hi as [-> Hi].
    rewrite count_tokens_hex_line, length_skipn.
    destruct (Nat.ltb_spec (S i) (chunk_count (List.length D) (Z.to_nat W))); nia.
  - unfold hex_lines, suffixes. now apply count_tokens_sum.
Qed.

Lemma hex_array_value_lines_witness :
  [x7f; x45; x4c; x46; x00]%byte <> [] /\ 0 < 2 /\
  exists out, binary_to_c_array_multiline [x7f; x45; x4c; x46; x00]%byte "buf" 2 = Ok out
    /\ Z.of_nat (List.length (value_lines out))
       = (Z.of_nat (List.length [x7f; x45; x4c; x46; x00]%byte) + 2 - 1) / 2
    /\ (forall i line, nth_error (value_lines out) i = Some line ->
          if (S i <? List.length (value_lines out))%nat
          then Z.of_nat (count_tokens line) = 2
          else 1 <= Z.of_nat (count_tokens line) <= 2)
    /\ list_sum (map count_tokens (value_lines out))
       = List.length [x7f; x45; x4c; x46; x00]%byte.
Proof.
  split; [discriminate|]. split; [lia|].
  apply (hex_array_value_lines [x7f; x45; x4c; x46; x00]%byte "buf" 2);
    [discriminate | lia].
Defined.

(** ** C6: trailing commas, hex-array style *)

(** C6: for every non-empty byte sequence [D] and positive width [W], the
    hex-array output has [ceil (len D / W)] value lines, one per chunk of
    [D], and the value line number [i] ends with a comma exactly when it is
    not the last value line, which is exactly when bytes of [D] remain
    after its chunk ([i * W + W < len D]). *)
Theorem hex_array_trailing_commas (D : list byte) (name : string) (W : Z) :
  D <> [] -> 0 < W ->
  exists out, binary_to_c_array_multiline D name W = Ok out
    /\ Z.of_nat (List.length (value_lines out))
       = (Z.of_nat (List.length D) + W - 1) / W
    /\ value_lines out <> []
    /\ forall i line, nth_error (value_lines out) i = Some line ->
         (last_char line = Some ","%char
          <-> (S i < List.length (value_lines out))%nat)
         /\ (last_char line = Some ","%char
             <-> Z.of_nat i * W + W < Z.of_nat (List.length D)).
Proof.
  intros Hne Hw.
  destruct (multiline_value_lines D name W Hne Hw) as (out & E & V).
  exists out. split; [exact E|]. rewrite V.
  assert (Hw' : (0 < Z.to_nat W)%nat) by lia.
  assert (Hn : (0 < List.length D)%nat) by (destruct D; [congruence | simpl; lia]).
  pose proof (chunk_count_bounds (List.length D) (Z.to_nat W) Hw' Hn) as B.
  split; [rewrite hex_lines_length by assumption; now apply chunk_count_ceil|].
  split.
  - intros Z0. apply (f_equal (@List.length string)) in Z0.
    rewrite hex_lines_length in Z0 by assumption. cbn [List.length] in Z0. nia.
  - intros i line Hi. rewrite hex_lines_length by assumption.
    apply hex_lines_nth in Hi; [|assumption]. destruct Hi as [-> Hi].
    rewrite last_char_hex_line, length_skipn. split; split; nia.
Qed.

Lemma hex_array_trailing_commas_witness :
  [x7f; x45; x4c; x46; x00]%byte <> [] /\ 0 < 2 /\
  exists out, binary_to_c_array_multiline [x7f; x45; x4c; x46; x00]%byte "buf" 2 = Ok out
    /\ Z.of_nat (List.length (value_lines out))
       = (Z.of_nat (List.length [x7f; x45; x4c; x46; x00]%byte) + 2 - 1) / 2
    /\ value_lines out <> []
    /\ forall i line, nth_error (value_lines out) i = Some line ->
         (last_char line = Some ","%char
          <-> (S i < List.length (value_lines out))%nat)
         /\ (last_char line = Some ","%char
             <-> Z.of_nat i * 2 + 2
                 < Z.of_nat (List.length [x7f; x45; x4c; x46; x00]%byte)).
Proof.
  split; [discriminate|]. split; [lia|].
  apply (hex_array_trailing_commas [x7f; x45; x4c; x46; x00]%byte "buf" 2);
    [discriminate | lia].
Defined.

(** ** C7: escaped-string style, empty input *)

(** C7: for the empty byte sequence the escaped-string formatter returns
    exactly the one line made of [unsigned char <name>[] = ], an empty
    string literal and a semicolon, without a length comment, for every
    name and width; in particular for [buf] and 12. *)
Theorem escaped_empty (name : string) (W : Z) :
  binary_to_c_array [] name W
  = Ok ("unsigned char " ++ name ++ "[] = " ++ dquote ++ dquote ++ ";")
  /\ binary_to_c_array [] "buf" 12
     = Ok ("unsigned char buf[] = " ++ dquote ++ dquote ++ ";")
  /\ split_lines ("unsigned char buf[] = " ++ dquote ++ dquote ++ ";")
     = ["unsigned char buf[] = " ++ dquote ++ dquote ++ ";"].
Proof. repeat split; reflexivity. Qed.

(** ** C8: totality for positive widths *)

(** C8: for every byte sequence, name and positive width both formatters
    return a string; no exception is raised.  (The input is a value of the
    immutable type [list byte]; the formatters only read it.) *)
Theorem formatters_total (D : list byte) (name : string) (W : Z) :
  0 < W ->
  (exists out, binary_to_c_array D name W = Ok out)
  /\ (exists out, binary_to_c_array_multiline D name W = Ok out).
Proof.
  intros Hw.
  destruct (list_eq_dec Byte.byte_eq_dec D []) as [->|Hne].
  - split; eexists; reflexivity.
  - split; eexists; [now apply escaped_closed_form | now apply multiline_closed_form].
Qed.

Lemma formatters_total_witness :
  0 < 3 /\
  (exists out, binary_to_c_array [x7f; x45; x4c; x46]%byte "buf" 3 = Ok out)
  /\ (exists out, binary_to_c_array_multiline [x7f; x45; x4c; x46]%byte "buf" 3 = Ok out).
Proof.
  split; [lia|]. apply (formatters_total [x7f; x45; x4c; x46]%byte "buf" 3). lia.
Defined.

(** ** C9: determinism *)

Lemma deref_last (h : Store.heap) (o : list string) :
  Store.deref (List.length h) (List.app h [o]) = o.
Proof.
  unfold Store.deref. rewrite app_nth2 by lia. now rewrite Nat.sub_diag.
Qed.

Lemma assign_last (h : Store.heap) (o v : list string) :
  Store.assign (List.length h) v (List.app h [o]) = List.app h [v].
Proof. induction h as [|x h IH]; cbn; [reflexivity | now rewrite IH]. Qed.

Lemma append_last (h : Store.heap) (o : list string) (x : string) :
  Store.append (List.length h) x (List.app h [o])
  = (Ok tt, List.app h [list_append o x]).
Proof. unfold Store.append. now rewrite deref_last, assign_last. Qed.

Lemma for_each_append {A : Type} (g : A -> string) (h : Store.heap) (idxs : list A) :
  forall o : list string,
  Store.for_each idxs (fun i => Store.append (List.length h) (g i)) (List.app h [o])
  = (Ok tt, List.app h [fold_left (fun output i => list_append output (g i)) idxs o]).
Proof.
  induction idxs as [|i idxs IH]; intros o; [reflexivity|].
  cbn [Store.for_each fold_left]. unfold Store.bind at 1.
  rewrite append_last. apply IH.
Qed.

(** On any heap the call returns what the function on values returns, and
    only adds objects to the heap. *)
Lemma store_escaped_run (D : list byte) (name : string) (W : Z) (h : Store.heap) :
  exists fresh,
    Store.binary_to_c_array D name W h
    = (binary_to_c_array D name W, List.app h fresh).
Proof.
  unfold Store.binary_to_c_array, binary_to_c_array.
  destruct D as [|b D']; [exists []; now rewrite app_nil_r|].
  set (D := b :: D').
  unfold Store.bind at 1, Store.new_list.
  unfold Store.bind at 1. rewrite append_last.
  unfold Store.bind at 1, Store.lift.
  destruct (range 0 (Z.of_nat (List.length (map (fun byte => "\x" ++ format_02X byte) D))) W)
    as [idxs|e]; [|eexists; reflexivity].
  cbn [bind]. unfold Store.bind at 1.
  rewrite (for_each_append
             (fun i =>
                if (i =? 0)%Z
                then "    " ++ dquote
                     ++ Py.join EmptyString
                          (slice (map (fun byte => "\x" ++ format_02X byte) D) i (i + W))
                     ++ dquote
                else "    " ++ dquote
                     ++ Py.join EmptyString
                          (slice (map (fun byte => "\x" ++ format_02X byte) D) i (i + W))
                     ++ dquote)).
  unfold Store.bind at 1, Store.iadd_last. rewrite deref_last.
  match goal with
  | |- context [iadd_last ?l ";"] => destruct (iadd_last l ";") as [v|e]
  end; [|eexists; reflexivity].
  cbn [bind]. rewrite assign_last.
  unfold Store.bind, Store.join. rewrite append_last, deref_last.
  eexists. reflexivity.
Qed.

Lemma store_multiline_run (D : list byte) (name : string) (W : Z) (h : Store.heap) :
  exists fresh,
    Store.binary_to_c_array_multiline D name W h
    = (binary_to_c_array_multiline D name W, List.app h fresh).
Proof.
  unfold Store.binary_to_c_array_multiline, binary_to_c_array_multiline.
  destruct D as [|b D']; [exists []; now rewrite app_nil_r|].
  set (D := b :: D').
  unfold Store.bind at 1, Store.new_list.
  unfold Store.bind at 1. rewrite append_last.
  unfold Store.bind at 1, Store.lift.
  destruct (range 0 (Z.of_nat (List.length D)) W) as [idxs|e];
    [|eexists; reflexivity].
  cbn [bind]. unfold Store.bind at 1.
  rewrite (for_each_append
             (fun i =>
                if (i + W <? Z.of_nat (List.length D))%Z
                then ("    " ++ Py.join ", " (map (fun byte => "0x" ++ format_02X byte)
                                                 (slice D i (i + W)))) ++ ","
                else "    " ++ Py.join ", " (map (fun byte => "0x" ++ format_02X byte)
                                                (slice D i (i + W))))).
  unfold Store.bind, Store.join. rewrite !append_last, deref_last.
  eexists. reflexivity.
Qed.

(** C9: both formatters are deterministic and share no state between
    runs.  Run on a heap of list objects, as in the interpreter, two
    invocations with equal data, equal array name and equal width return
    equal results whatever heaps they start in (so also when the second
    starts in the heap the first has left); the result is the one of the
    function on values used in the other claims; and a run leaves every
    object that was in the heap before it unchanged. *)
Theorem formatters_deterministic
    (D1 D2 : list byte) (name1 name2 : string) (W1 W2 : Z) (h1 h2 : Store.heap) :
  D1 = D2 -> name1 = name2 -> W1 = W2 ->
  (fst (Store.binary_to_c_array D1 name1 W1 h1)
   = fst (Store.binary_to_c_array D2 name2 W2 h2)
   /\ fst (Store.binary_to_c_array_multiline D1 name1 W1 h1)
      = fst (Store.binary_to_c_array_multiline D2 name2 W2 h2))
  /\ (fst (Store.binary_to_c_array D2 name2 W2
             (snd (Store.binary_to_c_array D1 name1 W1 h1)))
      = fst (Store.binary_to_c_array D1 name1 W1 h1)
      /\ fst (Store.binary_to_c_array_multiline D2 name2 W2
                (snd (Store.binary_to_c_array_multiline D1 name1 W1 h1)))
         = fst (Store.binary_to_c_array_multiline D1 name1 W1 h1))
  /\ (fst (Store.binary_to_c_array D1 name1 W1 h1) = binary_to_c_array D1 name1 W1
      /\ fst (Store.binary_to_c_array_multiline D1 name1 W1 h1)
         = binary_to_c_array_multiline D1 name1 W1)
  /\ (firstn (List.length h1) (snd (Store.binary_to_c_array D1 name1 W1 h1)) = h1
      /\ firstn (List.length h1) (snd (Store.binary_to_c_array_multiline D1 name1 W1 h1))
         = h1).
Proof.
  intros <- <- <-.
  assert (E : forall h, fst (Store.binary_to_c_array D1 name1 W1 h)
                        = binary_to_c_array D1 name1 W1).
  { intros h. destruct (store_escaped_run D1 name1 W1 h) as (f & ->). reflexivity. }
  assert (M : forall h, fst (Store.binary_to_c_array_multiline D1 name1 W1 h)
                        = binary_to_c_array_multiline D1 name1 W1).
  { intros h. destruct (store_multiline_run D1 name1 W1 h) as (f & ->). reflexivity. }
  repeat split; rewrite ?E, ?M; try reflexivity.
  - destruct (store_escaped_run D1 name1 W1 h1) as (f & ->). cbn [snd].
    rewrite firstn_app, Nat.sub_diag, firstn_all. cbn. apply app_nil_r.
  - destruct (store_multiline_run D1 name1 W1 h1) as (f & ->). cbn [snd].
    rewrite firstn_app, Nat.sub_diag, firstn_all. cbn. apply app_nil_r.
Qed.

Lemma formatters_deterministic_witness :
  fst (Store.binary_to_c_array [x7f; x45]%byte "buf" 12 [])
  = fst (Store.binary_to_c_array [x7f; x45]%byte "buf" 12 [["left"; "over"]])
  /\ fst (Store.binary_to_c_array_multiline [x7f; x45]%byte "buf" 12 [])
     = fst (Store.binary_to_c_array_multiline [x7f; x45]%byte "buf" 12 [["left"; "over"]]).
Proof.
  apply (formatters_deterministic [x7f; x45]%byte [x7f; x45]%byte "buf" "buf" 12 12
                                  [] [["left"; "over"]]);
    reflexivity.
Defined.

(** ** C10: width zero *)

(** C10: with width 0 both formatters raise [ValueError] on every non-empty
    byte sequence, while on the empty byte sequence they return their
    special-case line for every width, 0 included. *)
Theorem zero_width_raises_on_nonempty (D : list byte) (name : string) (W : Z) :
  (D <> [] ->
   binary_to_c_array D name 0 = Raise ValueError
   /\ binary_to_c_array_multiline D name 0 = Raise ValueError)
  /\ binary_to_c_array [] name W
     = Ok ("unsigned char " ++ name ++ "[] = " ++ dquote ++ dquote ++ ";")
  /\ binary_to_c_array_multiline [] name W
     = Ok ("unsigned char " ++ name ++ "[] = {};").
Proof.
  repeat split; try reflexivity; destruct D; congruence || reflexivity.
Qed.

Lemma zero_width_raises_on_nonempty_witness :
  [x00]%byte <> [] /\
  binary_to_c_array [x00]%byte "buf" 0 = Raise ValueError
  /\ binary_to_c_array_multiline [x00]%byte "buf" 0 = Raise ValueError.
Proof.
  split; [discriminate|].
  apply (proj1 (zero_width_raises_on_nonempty [x00]%byte "buf" 0)). discriminate.
Defined.

(** * Further properties of the formatters *)

Lemma range_negative (n : nat) (w : Z) :
  w < 0 -> range 0 (Z.of_nat n) w = Ok [].
Proof.
  intros Hw. unfold range, range_length.
  destruct (Z.eqb_spec w 0) as [?|_]; [lia|].
  destruct (Z.ltb_spec 0 w) as [?|_]; [lia|].
  destruct (Z.ltb_spec (Z.of_nat n) 0) as [?|_]; [lia|]. reflexivity.
Qed.

Lemma escaped_negative_closed_form (D : list byte) (name : string) (W : Z) :
  D <> [] -> W < 0 ->
  binary_to_c_array D name W
  = Ok ("unsigned char " ++ name ++ "[] =;" ++ newline
        ++ "/* Length: " ++ str (List.length D) ++ " bytes */").
Proof.
  intros Hne Hw. unfold binary_to_c_array.
  destruct D as [|b D']; [congruence|].
  rewrite length_map, range_negative by assumption.
  cbn [bind fold_left list_append List.app iadd_last join concat].
  f_equal. now rewrite !sapp_assoc.
Qed.

Lemma multiline_negative_closed_form (D : list byte) (name : string) (W : Z) :
  D <> [] -> W < 0 ->
  binary_to_c_array_multiline D name W
  = Ok ("unsigned char " ++ name ++ "[] = {" ++ newline ++ "};" ++ newline
        ++ "/* Length: " ++ str (List.length D) ++ " bytes */").
Proof.
  intros Hne Hw. unfold binary_to_c_array_multiline.
  destruct D as [|b D']; [congruence|].
  rewrite range_negative by assumption.
  cbn [bind fold_left list_append List.app join concat].
  f_equal. now rewrite !sapp_assoc.
Qed.

(** X1: with a negative width [range] is empty, so for a non-empty byte
    sequence both formatters return a declaration that holds no byte at
    all: [unsigned char <name>[] =;] in the escaped style, an opening brace
    line directly followed by the closing brace line in the hex-array
    style, each followed by the length comment. *)
Theorem negative_width_writes_no_byte (D : list byte) (name : string) (W : Z) :
  D <> [] -> W < 0 ->
  binary_to_c_array D name W
  = Ok ("unsigned char " ++ name ++ "[] =;" ++ newline
        ++ "/* Length: " ++ str (List.length D) ++ " bytes */")
  /\ binary_to_c_array_multiline D name W
     = Ok ("unsigned char " ++ name ++ "[] = {" ++ newline ++ "};" ++ newline
           ++ "/* Length: " ++ str (List.length D) ++ " bytes */").
Proof.
  intros Hne Hw. split.
  - now apply escaped_negative_closed_form.
  - now apply multiline_negative_closed_form.
Qed.

Lemma negative_width_writes_no_byte_witness :
  [x7f; x45]%byte <> [] /\ -3 < 0 /\
  binary_to_c_array [x7f; x45]%byte "buf" (-3)
  = Ok ("unsigned char " ++ "buf" ++ "[] =;" ++ newline
        ++ "/* Length: " ++ str (List.length [x7f; x45]%byte) ++ " bytes */")
  /\ binary_to_c_array_multiline [x7f; x45]%byte "buf" (-3)
     = Ok ("unsigned char " ++ "buf" ++ "[] = {" ++ newline ++ "};" ++ newline
           ++ "/* Length: " ++ str (List.length [x7f; x45]%byte) ++ " bytes */").
Proof.
  split; [discriminate|]. split; [lia|].
  apply (negative_width_writes_no_byte [x7f; x45]%byte "buf" (-3));
    [discriminate | lia].
Defined.

Lemma formatter_raise_cases (D : list byte) (name : string) (W : Z) :
  (D <> [] /\ W = 0
   /\ binary_to_c_array D name W = Raise ValueError
   /\ binary_to_c_array_multiline D name W = Raise ValueError)
  \/ ((exists out, binary_to_c_array D name W = Ok out)
      /\ (exists out, binary_to_c_array_multiline D name W = Ok out)).
Proof.
  destruct (list_eq_dec Byte.byte_eq_dec D []) as [->|Hne].
  { right. split; eexists; reflexivity. }
  destruct (Z.lt_trichotomy W 0) as [Hn|[->|Hp]].
  - right. split; eexists;
      [now apply escaped_negative_closed_form | now apply multiline_negative_closed_form].
  - left. repeat split; try assumption; destruct D; congruence || reflexivity.
  - right. split; eexists;
      [now apply escaped_closed_form | now apply multiline_closed_form].
Qed.

(** X2: the only way either formatter fails is the [ValueError] of
    [range] with step 0 on a non-empty byte sequence: an exception implies
    width 0, non-empty data and [ValueError]; [output[-1]] never raises
    [IndexError]. *)
Theorem formatters_raise_only_on_zero_width
    (D : list byte) (name : string) (W : Z) (e : exn) :
  binary_to_c_array D name W = Raise e
  \/ binary_to_c_array_multiline D name W = Raise e ->
  e = ValueError /\ W = 0 /\ D <> [].
Proof.
  intros H.
  destruct (formatter_raise_cases D name W)
    as [(Hne & -> & E1 & E2) | [(o1 & E1) (o2 & E2)]];
    rewrite E1, E2 in H; destruct H as [H|H]; try discriminate H;
    injection H as <-; now repeat split.
Qed.

Lemma formatters_raise_only_on_zero_width_witness :
  (binary_to_c_array [x7f]%byte "buf" 0 = Raise ValueError
   \/ binary_to_c_array_multiline [x7f]%byte "buf" 0 = Raise ValueError)
  /\ ValueError = ValueError /\ 0 = 0 /\ [x7f]%byte <> [].
Proof.
  split; [left; reflexivity|].
  apply (formatters_raise_only_on_zero_width [x7f]%byte "buf" 0 ValueError).
  left. reflexivity.
Defined.

Lemma multiline_parses_back (D : list byte) (name : string) (W : Z) :
  0 < W ->
  exists out, binary_to_c_array_multiline D name W = Ok out
    /\ parse_hex_array out = Some D.
Proof.
  intros Hw.
  destruct (list_eq_dec Byte.byte_eq_dec D []) as [->|Hne].
  - eexists. split; [reflexivity|].
    unfold parse_hex_array, brace_body.
    replace ("unsigned char " ++ name ++ "[] = {};")
      with (("unsigned char " ++ name ++ "[] = ") ++ String "{" "};")
      by (now rewrite !sapp_assoc).
    rewrite after_last_app by reflexivity. reflexivity.
  - destruct (multiline_brace_body D name W Hne Hw) as (out & E & B).
    exists out. split; [exact E|].
    unfold parse_hex_array. rewrite B, strip_blanks_prefixed.
    unfold hex_lines, suffixes.
    rewrite stripped_lines_items by lia.
    pose proof (parse_items_items D Hne) as P.
    destruct (items D); [discriminate P | exact P].
Qed.

Lemma escaped_parses_back (D : list byte) (name : string) (W : Z) :
  0 < W ->
  exists out, binary_to_c_array D name W = Ok out
    /\ parse_escaped out = Some D.
Proof.
  intros Hw.
  destruct (list_eq_dec Byte.byte_eq_dec D []) as [->|Hne].
  - eexists. split; [reflexivity|].
    unfold parse_escaped.
    replace ("unsigned char " ++ name ++ "[] = " ++ dquote ++ dquote ++ ";")
      with (("unsigned char " ++ name ++ "[] ") ++ String "=" (" " ++ dquote ++ dquote ++ ";"))
      by (now rewrite !sapp_assoc).
    rewrite after_last_app by reflexivity. reflexivity.
  - eexists. split; [now apply escaped_text|].
    unfold parse_escaped.
    rewrite after_last_app.
    + rewrite before_first_app.
      * unfold esc_lines, suffixes. rewrite literal_contents_lines.
        rewrite flat_map_suffixes by lia. apply parse_escapes_escapes.
      * apply occurs_prefixed; try reflexivity. now apply esc_lines_clean.
    + rewrite occurs_app. apply orb_false_iff. split.
      * apply occurs_prefixed; try reflexivity. now apply esc_lines_clean.
      * cbn [occurs]. rewrite occurs_app.
        rewrite (all_in_occurs _ _ _ (length_comment_alphabet _)) by reflexivity.
        reflexivity.
Qed.

(** X3: for positive widths each formatter is injective in the data:
    two calls that return the same text were given the same byte sequence,
    whatever the names and widths. *)
Theorem formatters_injective
    (D1 D2 : list byte) (name1 name2 : string) (W1 W2 : Z) :
  0 < W1 -> 0 < W2 ->
  (binary_to_c_array D1 name1 W1 = binary_to_c_array D2 name2 W2 -> D1 = D2)
  /\ (binary_to_c_array_multiline D1 name1 W1
      = binary_to_c_array_multiline D2 name2 W2 -> D1 = D2).
Proof.
  intros H1 H2. split; intros E.
  - destruct (escaped_parses_back D1 name1 W1 H1) as (o1 & E1 & P1).
    destruct (escaped_parses_back D2 name2 W2 H2) as (o2 & E2 & P2).
    rewrite E1, E2 in E. injection E as ->. congruence.
  - destruct (multiline_parses_back D1 name1 W1 H1) as (o1 & E1 & P1).
    destruct (multiline_parses_back D2 name2 W2 H2) as (o2 & E2 & P2).
    rewrite E1, E2 in E. injection E as ->. congruence.
Qed.

Lemma formatters_injective_witness :
  0 < 2 /\ 0 < 2 /\
  (binary_to_c_array [x7f; x45]%byte "buf" 2 = binary_to_c_array [x7f; x45]%byte "buf" 2
   -> [x7f; x45]%byte = [x7f; x45]%byte)
  /\ (binary_to_c_array_multiline [x7f; x45]%byte "buf" 2
      = binary_to_c_array_multiline [x7f; x45]%byte "buf" 2
      -> [x7f; x45]%byte = [x7f; x45]%byte).
Proof.
  split; [lia|]. split; [lia|].
  apply (formatters_injective [x7f; x45]%byte [x7f; x45]%byte "buf" "buf" 2 2); lia.
Defined.

Lemma read_length_comment_ok (n : nat) :
  read_length_comment (length_comment n) = Some n.
Proof.
  unfold read_length_comment, length_comment.
  change (strip_prefix "/* Length: " ("/* Length: " ++ str n ++ " bytes */"))
    with (Some (str n ++ String " " "bytes */")).
  cbv beta iota.
  rewrite before_first_app
    by (apply (all_in_occurs "0123456789"); [now apply all_in_str | reflexivity]).
  change (str n ++ String " " "bytes */") with (str n ++ " bytes */").
  rewrite String.eqb_refl.
  unfold str. pose proof (DecimalNat.Unsigned.of_to n) as OT.
  destruct (Nat.to_uint n) eqn:E;
    try (rewrite NilZero.usu by discriminate; cbn [option_map]; now rewrite OT).
  rewrite NilZero.usu_nil. cbn [option_map]. now rewrite <- OT.
Qed.

Lemma last_line_after_newline (a c : string) :
  occurs ch_newline c = false ->
  last (split_lines (a ++ newline ++ c)) EmptyString = c.
Proof.
  intros Hc. rewrite split_lines_app, (split_lines_last c Hc).
  apply last_last.
Qed.

Lemma length_comment_no_newline (n : nat) :
  occurs ch_newline (length_comment n) = false.
Proof.
  apply (all_in_occurs _ _ _ (length_comment_alphabet n)). reflexivity.
Qed.

(** X4: for a non-empty byte sequence and a positive width, the last line
    of the output of either formatter is a length comment, and the number
    read back from it is the number of bytes of the input. *)
Theorem length_comment_reports_length (D : list byte) (name : string) (W : Z) :
  D <> [] -> 0 < W ->
  exists o1 o2,
    binary_to_c_array D name W = Ok o1
    /\ binary_to_c_array_multiline D name W = Ok o2
    /\ read_length_comment (last (split_lines o1) EmptyString) = Some (List.length D)
    /\ read_length_comment (last (split_lines o2) EmptyString) = Some (List.length D).
Proof.
  intros Hne Hw. do 2 eexists.
  split; [now apply escaped_closed_form|].
  split; [now apply multiline_closed_form|].
  split.
  - fold (length_comment (List.length D)).
    rewrite <- !sapp_assoc. rewrite sapp_assoc.
    rewrite last_line_after_newline by apply length_comment_no_newline.
    apply read_length_comment_ok.
  - set (lines := map _ _).
    change ["};"; ?c] with (List.app ["};"] [c]).
    rewrite app_assoc, app_comm_cons.
    rewrite join_snoc by discriminate.
    rewrite last_line_after_newline by apply length_comment_no_newline.
    apply read_length_comment_ok.
Qed.

Lemma length_comment_reports_length_witness :
  [x7f; x45; x4c]%byte <> [] /\ 0 < 2 /\
  exists o1 o2,
    binary_to_c_array [x7f; x45; x4c]%byte "buf" 2 = Ok o1
    /\ binary_to_c_array_multiline [x7f; x45; x4c]%byte "buf" 2 = Ok o2
    /\ read_length_comment (last (split_lines o1) EmptyString)
       = Some (List.length [x7f; x45; x4c]%byte)
    /\ read_length_comment (last (split_lines o2) EmptyString)
       = Some (List.length [x7f; x45; x4c]%byte).
Proof.
  split; [discriminate|]. split; [lia|].
  apply (length_comment_reports_length [x7f; x45; x4c]%byte "buf" 2);
    [discriminate | lia].
Defined.

(** X5: when the width is at least the number of bytes, a non-empty byte
    sequence is written as a single chunk, and the output does not depend
    on the width any more: the escaped style is the header line, one quoted
    line with every escape, closed by a semicolon, and the length comment;
    the hex-array style is the brace line, one line with every token and
    no trailing comma, the closing line and the length comment. *)
Theorem wide_width_single_chunk (D : list byte) (name : string) (W : Z) :
  D <> [] -> Z.of_nat (List.length D) <= W ->
  binary_to_c_array D name W
  = Ok (("unsigned char " ++ name ++ "[] =") ++ newline
        ++ ("    " ++ dquote ++ escapes D ++ dquote) ++ ";" ++ newline
        ++ "/* Length: " ++ str (List.length D) ++ " bytes */")
  /\ binary_to_c_array_multiline D name W
     = Ok (("unsigned char " ++ name ++ "[] = {") ++ newline
           ++ ("    " ++ join ", " (map hex_token D)) ++ newline
           ++ "};" ++ newline
           ++ "/* Length: " ++ str (List.length D) ++ " bytes */").
Proof.
  intros Hne Hle.
  assert (Hn : (0 < List.length D)%nat) by (destruct D; [congruence | simpl; lia]).
  assert (Hw : 0 < W) by lia.
  destruct (suffixes_head (Z.to_nat W) D Hne ltac:(lia)) as (rest & ES & Hrest).
  assert (rest = []) as -> by (apply Hrest; lia).
  split.
  - rewrite escaped_closed_form by assumption. rewrite ES.
    cbn [map join concat]. unfold esc_line.
    rewrite firstn_all2 by lia. reflexivity.
  - rewrite multiline_closed_form by assumption. rewrite ES.
    cbn [map List.app join concat]. unfold hex_line.
    destruct (Nat.ltb_spec (Z.to_nat W) (List.length D)) as [?|_]; [lia|].
    rewrite firstn_all2 by lia. reflexivity.
Qed.

Lemma wide_width_single_chunk_witness :
  [x7f; x45]%byte <> [] /\ Z.of_nat (List.length [x7f; x45]%byte) <= 12 /\
  binary_to_c_array [x7f; x45]%byte "buf" 12
  = Ok (("unsigned char " ++ "buf" ++ "[] =") ++ newline
        ++ ("    " ++ dquote ++ escapes [x7f; x45]%byte ++ dquote) ++ ";" ++ newline
        ++ "/* Length: " ++ str (List.length [x7f; x45]%byte) ++ " bytes */")
  /\ binary_to_c_array_multiline [x7f; x45]%byte "buf" 12
     = Ok (("unsigned char " ++ "buf" ++ "[] = {") ++ newline
           ++ ("    " ++ join ", " (map hex_token [x7f; x45]%byte)) ++ newline
           ++ "};" ++ newline
           ++ "/* Length: " ++ str (List.length [x7f; x45]%byte) ++ " bytes */").
Proof.
  split; [discriminate|]. split; [cbn; lia|].
  apply (wide_width_single_chunk [x7f; x45]%byte "buf" 12); [discriminate | cbn; lia].
Defined.

Lemma index_below_chunk_count (n w i : nat) :
  (0 < w)%nat -> (i * w < n)%nat -> (i < chunk_count n w)%nat.
Proof.
  intros Hw Hi.
  pose proof (chunk_count_bounds n w Hw ltac:(lia)) as B. nia.
Qed.

Lemma suffixes_nth (w : nat) (D : list byte) (i : nat) :
  (0 < w)%nat -> (i < chunk_count (List.length D) w)%nat ->
  nth_error (suffixes w D) i = Some (skipn (i * w) D).
Proof.
  intros Hw Hi. unfold suffixes.
  rewrite <- (suffixes_index w Hw (List.length D) D) by lia.
  rewrite nth_error_map, nth_error_seq.
  destruct (Nat.ltb_spec i (chunk_count (List.length D) w)); [reflexivity | lia].
Qed.

(** X6: in the hex-array output, the value line number [i] (from 0) is
    exactly four spaces, the [0xHH] tokens of the bytes [D[i*W : i*W+W]]
    separated by a comma and a space, and a trailing comma when bytes
    remain after that chunk. *)
Theorem hex_array_value_line_content
    (D : list byte) (name : string) (W : Z) (i : nat) :
  D <> [] -> 0 < W -> Z.of_nat i * W < Z.of_nat (List.length D) ->
  exists out, binary_to_c_array_multiline D name W = Ok out
    /\ nth_error (value_lines out) i
       = Some ("    "
               ++ join ", " (map hex_token
                               (slice D (Z.of_nat i * W) (Z.of_nat i * W + W)))
               ++ (if (Z.of_nat i * W + W <? Z.of_nat (List.length D))%Z
                   then "," else EmptyString)).
Proof.
  intros Hne Hw Hi.
  destruct (multiline_value_lines D name W Hne Hw) as (out & E & V).
  exists out. split; [exact E|]. rewrite V.
  assert (Hw' : (0 < Z.to_nat W)%nat) by lia.
  assert (Hi' : (i * Z.to_nat W < List.length D)%nat) by nia.
  unfold hex_lines. rewrite nth_error_map.
  rewrite suffixes_nth by (assumption || now apply index_below_chunk_count).
  cbn [option_map]. f_equal.
  replace (Z.of_nat i * W) with (Z.of_nat (i * Z.to_nat W)) by nia.
  rewrite slice_nat by lia. unfold hex_line. rewrite length_skipn.
  destruct (Nat.ltb_spec (Z.to_nat W) (List.length D - i * Z.to_nat W));
    destruct (Z.ltb_spec (Z.of_nat (i * Z.to_nat W) + W) (Z.of_nat (List.length D)));
    try lia.
  - now rewrite sapp_assoc.
  - now rewrite sapp_nil_r.
Qed.

Lemma hex_array_value_line_content_witness :
  [x7f; x45; x4c]%byte <> [] /\ 0 < 2
  /\ Z.of_nat 1 * 2 < Z.of_nat (List.length [x7f; x45; x4c]%byte) /\
  exists out, binary_to_c_array_multiline [x7f; x45; x4c]%byte "buf" 2 = Ok out
    /\ nth_error (value_lines out) 1
       = Some ("    "
               ++ join ", " (map hex_token
                               (slice [x7f; x45; x4c]%byte
                                      (Z.of_nat 1 * 2) (Z.of_nat 1 * 2 + 2)))
               ++ (if (Z.of_nat 1 * 2 + 2 <? Z.of_nat (List.length [x7f; x45; x4c]%byte))%Z
                   then "," else EmptyString)).
Proof.
  split; [discriminate|]. split; [lia|]. split; [cbn; lia|].
  apply (hex_array_value_line_content [x7f; x45; x4c]%byte "buf" 2 1);
    [discriminate | lia | cbn; lia].
Defined.

Lemma split_lines_join (ls : list string) :
  ls <> [] -> Forall (fun l => occurs ch_newline l = false) ls ->
  split_lines (join newline ls) = ls.
Proof.
  intros Hne H. induction H as [|x ls Hx Hls IH]; [congruence|].
  destruct ls as [|y ls].
  - now apply split_lines_last.
  - rewrite join_cons by discriminate.
    rewrite split_lines_line by assumption.
    now rewrite IH by discriminate.
Qed.

Lemma join_close_last (sep s x : string) (l : list string) :
  join sep (List.app l [x]) ++ s = join sep (List.app l [x ++ s]).
Proof.
  destruct l as [|y l]; [reflexivity|].
  rewrite !join_snoc by discriminate. now rewrite !sapp_assoc.
Qed.

Lemma esc_lines_index (w : nat) (D : list byte) :
  (0 < w)%nat ->
  esc_lines w D
  = map (fun k => esc_line w (skipn (k * w) D))
        (seq O (chunk_count (List.length D) w)).
Proof.
  intros Hw. unfold esc_lines, suffixes.
  rewrite <- (suffixes_index w Hw (List.length D) D) by lia.
  now rewrite map_map.
Qed.

(** All the lines of the escaped-string output, the last literal closed. *)
Lemma escaped_lines (D : list byte) (name : string) (W : Z) :
  D <> [] -> 0 < W -> occurs ch_newline name = false ->
  exists out m,
    binary_to_c_array D name W = Ok out
    /\ chunk_count (List.length D) (Z.to_nat W) = S m
    /\ split_lines out
       = ("unsigned char " ++ name ++ "[] =")
         :: List.app
              (map (fun k => esc_line (Z.to_nat W) (skipn (k * Z.to_nat W) D)) (seq O m))
              [esc_line (Z.to_nat W) (skipn (m * Z.to_nat W) D) ++ ";";
               length_comment (List.length D)].
Proof.
  intros Hne Hw Hname.
  assert (Hw' : (0 < Z.to_nat W)%nat) by lia.
  assert (Hn : (0 < List.length D)%nat) by (destruct D; [congruence | simpl; lia]).
  destruct (chunk_count (List.length D) (Z.to_nat W)) as [|m] eqn:EC.
  { pose proof (chunk_count_bounds _ _ Hw' Hn). lia. }
  eexists. exists m. split; [now apply escaped_closed_form|].
  split; [reflexivity|].
  fold (esc_lines (Z.to_nat W) D). rewrite esc_lines_index by assumption.
  rewrite EC, seq_S, map_app. cbn [map Nat.add].
  set (g := fun k => esc_line (Z.to_nat W) (skipn (k * Z.to_nat W) D)).
  change (esc_line (Z.to_nat W) (skipn (m * Z.to_nat W) D)) with (g m).
  set (hdr := "unsigned char " ++ name ++ "[] =").
  set (c := length_comment (List.length D)).
  replace (hdr ++ newline ++ join newline (map g (seq O m) ++ [g m])%list
           ++ ";" ++ newline ++ c)
    with (join newline (hdr :: List.app (map g (seq O m)) [g m ++ ";"; c])).
  - apply split_lines_join; [discriminate|].
    constructor.
    { subst hdr. now rewrite !occurs_app, Hname. }
    apply Forall_app. split.
    + apply Forall_forall. intros l Hl. apply in_map_iff in Hl.
      destruct Hl as (k & <- & _). subst g.
      apply (all_in_occurs _ _ _ (esc_line_alphabet _ _)). reflexivity.
    + constructor; [|constructor; [apply length_comment_no_newline | constructor]].
      subst g. rewrite occurs_app.
      now rewrite (all_in_occurs _ _ _ (esc_line_alphabet _ _)) by reflexivity.
  - rewrite join_cons by (destruct (map g (seq O m)); discriminate).
    change [g m ++ ";"; c] with (List.app [g m ++ ";"] [c]).
    rewrite app_assoc, join_snoc by (destruct (map g (seq O m)); discriminate).
    rewrite <- join_close_last. now rewrite !sapp_assoc.
Qed.



Lemma slength_app (a b : string) :
  String.length (a ++ b) = (String.length a + String.length b)%nat.
Proof. induction a as [|x a IH]; simpl; [reflexivity | now rewrite IH]. Qed.

Lemma hex_tokens_length (l : list byte) :
  String.length (join ", " (map hex_token l)) = (6 * List.length l - 2)%nat.
Proof.
  induction l as [|b l IH]; [reflexivity|].
  destruct l as [|c l]; [reflexivity|].
  cbn [map] in *. rewrite join_cons by discriminate.
  rewrite !slength_app, IH. cbn [List.length]. cbn. lia.
Qed.

Lemma escapes_length (l : list byte) :
  String.length (escapes l) = (4 * List.length l)%nat.
Proof.
  induction l as [|b l IH]; [reflexivity|].
  rewrite escapes_cons, slength_app, IH. cbn [List.length]. cbn. lia.
Qed.

Lemma hex_line_length (w : nat) (s : list byte) :
  (0 < w)%nat -> (String.length (hex_line w s) <= 6 * w + 3)%nat.
Proof.
  intros Hw. unfold hex_line.
  assert (H : String.length ("    " ++ join ", " (map hex_token (firstn w s)))
              = (4 + (6 * Nat.min w (List.length s) - 2))%nat).
  { now rewrite slength_app, hex_tokens_length, length_firstn. }
  destruct (w <? List.length s)%nat.
  - rewrite slength_app, H. cbn. lia.
  - rewrite H. lia.
Qed.

(** X8: the width bounds the length of the lines: for a non-empty byte
    sequence and a positive width, no value line of the hex-array output is
    longer than [6 * W + 3] characters, and, for a name without a line
    break, no chunk line of the escaped-string output is longer than
    [4 * W + 7] characters. *)
Theorem line_length_bounded (D : list byte) (name : string) (W : Z) :
  D <> [] -> 0 < W ->
  exists o1 o2,
    binary_to_c_array D name W = Ok o1
    /\ binary_to_c_array_multiline D name W = Ok o2
    /\ Forall (fun line => Z.of_nat (String.length line) <= 6 * W + 3)
              (value_lines o2)
    /\ (occurs ch_newline name = false ->
        forall i line,
          Z.of_nat i * W < Z.of_nat (List.length D) ->
          nth_error (split_lines o1) (S i) = Some line ->
          Z.of_nat (String.length line) <= 4 * W + 7).
Proof.
  intros Hne Hw.
  assert (Hw' : (0 < Z.to_nat W)%nat) by lia.
  assert (Hn : (0 < List.length D)%nat) by (destruct D; [congruence | simpl; lia]).
  destruct (multiline_value_lines D name W Hne Hw) as (o2 & E2 & V).
  destruct (binary_to_c_array D name W) as [o1|e] eqn:E1;
    [|rewrite escaped_closed_form in E1 by assumption; discriminate E1].
  exists o1, o2.
  split; [reflexivity|]. split; [exact E2|]. split.
  - rewrite V. apply Forall_forall. intros line Hl.
    unfold hex_lines in Hl. apply in_map_iff in Hl. destruct Hl as (s & <- & _).
    pose proof (hex_line_length (Z.to_nat W) s Hw'). lia.
  - intros Hname i line Hi Hl.
    destruct (escaped_lines D name W Hne Hw Hname) as (out & m & E & EC & L).
    rewrite E1 in E. injection E as <-.
    rewrite L in Hl. cbn [nth_error] in Hl.
    pose proof (chunk_count_bounds _ _ Hw' Hn) as B. rewrite EC in B.
    assert (Hline : forall k,
               (String.length (esc_line (Z.to_nat W) (skipn (k * Z.to_nat W) D))
                <= 4 * Z.to_nat W + 6)%nat).
    { intros k. unfold esc_line.
      fold (escapes (firstn (Z.to_nat W) (skipn (k * Z.to_nat W) D))).
      rewrite !slength_app, escapes_length, length_firstn. cbn. lia. }
    destruct (Nat.lt_ge_cases i m) as [Hlt|Hge].
    + rewrite nth_error_app1 in Hl by (rewrite length_map, length_seq; lia).
      apply nth_error_In, in_map_iff in Hl. destruct Hl as (k & <- & _).
      specialize (Hline k). lia.
    + assert (i = m) as -> by nia.
      rewrite nth_error_app2 in Hl by (rewrite length_map, length_seq; lia).
      rewrite length_map, length_seq, Nat.sub_diag in Hl. cbn [nth_error] in Hl.
      assert (line = esc_line (Z.to_nat W) (skipn (m * Z.to_nat W) D) ++ ";")
        as -> by congruence.
      rewrite slength_app. specialize (Hline m).
      change (String.length ";") with 1%nat. lia.
Qed.

Lemma line_length_bounded_witness :
  [x7f; x45; x4c]%byte <> [] /\ 0 < 2 /\
  exists o1 o2,
    binary_to_c_array [x7f; x45; x4c]%byte "buf" 2 = Ok o1
    /\ binary_to_c_array_multiline [x7f; x45; x4c]%byte "buf" 2 = Ok o2
    /\ Forall (fun line => Z.of_nat (String.length line) <= 6 * 2 + 3)
              (value_lines o2)
    /\ (occurs ch_newline "buf" = false ->
        forall i line,
          Z.of_nat i * 2 < Z.of_nat (List.length [x7f; x45; x4c]%byte) ->
          nth_error (split_lines o1) (S i) = Some line ->
          Z.of_nat (String.length line) <= 4 * 2 + 7).
Proof.
  split; [discriminate|]. split; [lia|].
  apply (line_length_bounded [x7f; x45; x4c]%byte "buf" 2); [discriminate | lia].
Defined.


(** * Properties of the command line program *)

(** Unfold a run and follow every answer of the environment. *)
Ltac unfold_run :=
  unfold Cli.run, Cli.main, Cli.read_binary_file, Cli.write_output,
         Cli.print, Cli.try_print, Cli.bind, Cli.emit, Cli.ret,
         Cli.sys_exit, Cli.stopped;
  cbn [negb List.app fst snd].

Ltac fold_formatted :=
  repeat match goal with
  | |- context [if Cli.hex_format ?a
                then binary_to_c_array_multiline ?d (Cli.name ?a) (Cli.width ?a)
                else binary_to_c_array ?d (Cli.name ?a) (Cli.width ?a)] =>
    change (if Cli.hex_format a
            then binary_to_c_array_multiline d (Cli.name a) (Cli.width a)
            else binary_to_c_array d (Cli.name a) (Cli.width a))
      with (Cli.formatted a d)
  end.

Ltac follow_run :=
  repeat (fold_formatted;
          match goal with
          | |- context [Cli.isfile ?s ?p] =>
            let E := fresh "EI" in destruct (Cli.isfile s p) eqn:E
          | |- context [Cli.stdout_write ?s ?t ?x] =>
            let E := fresh "EO" in destruct (Cli.stdout_write s t x) eqn:E
          | |- context [Cli.open_rb ?s ?p] =>
            let E := fresh "ER" in destruct (Cli.open_rb s p) as [?data|[| |?msg]] eqn:E
          | |- context [Cli.call (Cli.formatted ?a ?d)] =>
            let E := fresh "EF" in
            destruct (Cli.formatted a d) as [?c|?ex] eqn:E; unfold Cli.call, Cli.ret, Cli.stopped
          | |- context [if Cli.preview ?a then _ else _] =>
            let E := fresh "EV" in destruct (Cli.preview a) eqn:E
          | |- context [Cli.open_w ?s ?p ?c] =>
            let E := fresh "EW" in destruct (Cli.open_w s p c) eqn:E
          end;
          cbn [negb List.app fst snd]).

(** The write attempts of a run: none, or the one of [write_output]. *)
Lemma write_attempts_run (sys : Cli.os) (a : Cli.args) :
  Cli.write_attempts (fst (Cli.run sys a)) = []
  \/ (Cli.preview a = false
      /\ Cli.isfile sys (Cli.file a) = true
      /\ exists data c,
           Cli.open_rb sys (Cli.file a) = Cli.ReadOk data
           /\ Cli.formatted a data = Ok c
           /\ Cli.write_attempts (fst (Cli.run sys a)) = [(Cli.output a, c)]).
Proof.
  unfold_run. follow_run.
  all: try (left; reflexivity).
  all: right; repeat split; try reflexivity; do 2 eexists; repeat split; eauto.
Qed.


Lemma formatted_zero_width (a : Cli.args) (data : list byte) :
  data <> [] -> Cli.width a = 0 -> Cli.formatted a data = Raise ValueError.
Proof.
  intros Hne Hw. unfold Cli.formatted. rewrite Hw.
  destruct (Cli.hex_format a); destruct data; congruence || reflexivity.
Qed.

Lemma formatted_parses_back (a : Cli.args) (data : list byte) (c : string) :
  0 < Cli.width a -> Cli.formatted a data = Ok c -> Cli.parse_back a c = Some data.
Proof.
  unfold Cli.formatted, Cli.parse_back. intros Hw E.
  destruct (Cli.hex_format a).
  - destruct (multiline_parses_back data (Cli.name a) (Cli.width a) Hw) as (o & Eo & P).
    congruence.
  - destruct (escaped_parses_back data (Cli.name a) (Cli.width a) Hw) as (o & Eo & P).
    congruence.
Qed.

Lemma write_attempt_source (sys : Cli.os) (a : Cli.args) (p c : string) :
  In (p, c) (Cli.write_attempts (fst (Cli.run sys a))) ->
  p = Cli.output a
  /\ Cli.preview a = false
  /\ Cli.isfile sys (Cli.file a) = true
  /\ Cli.write_attempts (fst (Cli.run sys a)) = [(p, c)]
  /\ exists data,
       Cli.open_rb sys (Cli.file a) = Cli.ReadOk data
       /\ Cli.formatted a data = Ok c.
Proof.
  intros H.
  destruct (write_attempts_run sys a) as [E|(HV & HI & data & c0 & HR & HF & E)];
    rewrite E in H; cbn in H; [contradiction|].
  destruct H as [[= <- <-]|[]].
  repeat split; try assumption. eauto.
Qed.

(** X10: with the preview flag set, [main] never opens a file for writing,
    whatever the operating system answers and however the run ends. *)
Theorem preview_never_writes (sys : Cli.os) (a : Cli.args) :
  Cli.preview a = true -> Cli.write_attempts (fst (Cli.run sys a)) = [].
Proof.
  intros H.
  destruct (write_attempts_run sys a) as [E|(HV & _)]; [exact E | congruence].
Qed.

Lemma preview_never_writes_witness :
  Cli.preview (Cli.with_preview (Cli.default_args "in.bin") true) = true /\
  Cli.write_attempts
    (fst (Cli.run (Cli.one_file_os "in.bin" [x7f]%byte)
                  (Cli.with_preview (Cli.default_args "in.bin") true))) = [].
Proof.
  split; [reflexivity|].
  apply (preview_never_writes (Cli.one_file_os "in.bin" [x7f]%byte)
                              (Cli.with_preview (Cli.default_args "in.bin") true)).
  reflexivity.
Defined.

(** X11: [main] opens at most one file for writing, and only when the
    preview flag is off: the path is [args.output] and the text is the
    result of the selected formatter on the bytes read from [args.file],
    with [args.name] and [args.width]. *)
Theorem written_text_is_formatter_output
    (sys : Cli.os) (a : Cli.args) (p c : string) :
  In (p, c) (Cli.write_attempts (fst (Cli.run sys a))) ->
  p = Cli.output a
  /\ Cli.preview a = false
  /\ Cli.write_attempts (fst (Cli.run sys a)) = [(p, c)]
  /\ exists data,
       Cli.open_rb sys (Cli.file a) = Cli.ReadOk data
       /\ Cli.formatted a data = Ok c.
Proof.
  intros H.
  destruct (write_attempt_source sys a p c H) as (-> & HV & _ & E & data & HR & HF).
  repeat split; try assumption; try reflexivity. eauto.
Qed.

Lemma written_text_is_formatter_output_witness :
  In ("out.txt",
      "unsigned char buf[] =" ++ newline
      ++ "    " ++ dquote ++ "\x7F" ++ dquote ++ ";" ++ newline
      ++ "/* Length: 1 bytes */")
     (Cli.write_attempts
        (fst (Cli.run (Cli.one_file_os "in.bin" [x7f]%byte) (Cli.default_args "in.bin"))))
  /\ "out.txt" = Cli.output (Cli.default_args "in.bin").
Proof.
  assert (H : In ("out.txt",
                  "unsigned char buf[] =" ++ newline
                  ++ "    " ++ dquote ++ "\x7F" ++ dquote ++ ";" ++ newline
                  ++ "/* Length: 1 bytes */")
                 (Cli.write_attempts
                    (fst (Cli.run (Cli.one_file_os "in.bin" [x7f]%byte)
                                  (Cli.default_args "in.bin")))))
    by (vm_compute; left; reflexivity).
  split; [exact H|].
  exact (proj1 (written_text_is_formatter_output _ _ _ _ H)).
Defined.

(** X14: with a positive width, whatever text [main] hands to the file
    system re-parses, with the reader of the selected style, to exactly the
    bytes that were read from the input file. *)
Theorem written_file_parses_back
    (sys : Cli.os) (a : Cli.args) (p c : string) :
  0 < Cli.width a ->
  In (p, c) (Cli.write_attempts (fst (Cli.run sys a))) ->
  exists data,
    Cli.open_rb sys (Cli.file a) = Cli.ReadOk data
    /\ Cli.parse_back a c = Some data.
Proof.
  intros Hw H.
  destruct (write_attempt_source sys a p c H) as (_ & _ & _ & _ & data & HR & HF).
  exists data. split; [assumption | now apply formatted_parses_back].
Qed.

Lemma written_file_parses_back_witness :
  0 < Cli.width (Cli.default_args "in.bin")
  /\ In ("out.txt",
         "unsigned char buf[] =" ++ newline
         ++ "    " ++ dquote ++ "\x7F" ++ dquote ++ ";" ++ newline
         ++ "/* Length: 1 bytes */")
        (Cli.write_attempts
           (fst (Cli.run (Cli.one_file_os "in.bin" [x7f]%byte) (Cli.default_args "in.bin"))))
  /\ exists data,
       Cli.open_rb (Cli.one_file_os "in.bin" [x7f]%byte) (Cli.file (Cli.default_args "in.bin"))
       = Cli.ReadOk data
       /\ Cli.parse_back (Cli.default_args "in.bin")
            ("unsigned char buf[] =" ++ newline
             ++ "    " ++ dquote ++ "\x7F" ++ dquote ++ ";" ++ newline
             ++ "/* Length: 1 bytes */")
          = Some data.
Proof.
  assert (Hw : 0 < Cli.width (Cli.default_args "in.bin")) by (cbn; lia).
  assert (H : In ("out.txt",
                  "unsigned char buf[] =" ++ newline
                  ++ "    " ++ dquote ++ "\x7F" ++ dquote ++ ";" ++ newline
                  ++ "/* Length: 1 bytes */")
                 (Cli.write_attempts
                    (fst (Cli.run (Cli.one_file_os "in.bin" [x7f]%byte)
                                  (Cli.default_args "in.bin")))))
    by (vm_compute; left; reflexivity).
  split; [exact Hw|]. split; [exact H|].
  exact (written_file_parses_back _ _ _ _ Hw H).
Defined.


Ltac stdout_refuses Hworks :=
  match goal with
  | EO : Cli.stdout_write _ _ _ = Cli.PrintFails _ |- _ =>
    rewrite Hworks in EO; discriminate EO
  end.

(** X9: when [os.path.isfile] answers no, [main] opens nothing, neither
    for reading nor for writing, and hands the message that the path is
    not a valid file to [print]: when [print] returns, the run ends by
    [sys.exit(1)]; when [print] raises, its exception leaves [main]. *)
Theorem main_rejects_non_file (sys : Cli.os) (a : Cli.args) :
  Cli.isfile sys (Cli.file a) = false ->
  Cli.reads (fst (Cli.run sys a)) = []
  /\ Cli.write_attempts (fst (Cli.run sys a)) = []
  /\ (Cli.stdout_write sys [Cli.IsFile (Cli.file a) false]
        ("错误: '" ++ Cli.file a ++ "' 不是一个有效的文件") = Cli.PrintOk ->
      Cli.run sys a
      = ([Cli.IsFile (Cli.file a) false;
          Cli.Print ("错误: '" ++ Cli.file a ++ "' 不是一个有效的文件") Cli.PrintOk],
         Cli.Stopped (Cli.SystemExit 1)))
  /\ (forall e,
        Cli.stdout_write sys [Cli.IsFile (Cli.file a) false]
          ("错误: '" ++ Cli.file a ++ "' 不是一个有效的文件") = Cli.PrintFails e ->
        Cli.run sys a
        = ([Cli.IsFile (Cli.file a) false;
            Cli.Print ("错误: '" ++ Cli.file a ++ "' 不是一个有效的文件")
                      (Cli.PrintFails e)],
           Cli.Stopped (Cli.Uncaught (Cli.PrintError e)))).
Proof.
  intros H. unfold_run. rewrite H. cbn [negb List.app fst snd].
  destruct (Cli.stdout_write sys [Cli.IsFile (Cli.file a) false]
              ("错误: '" ++ Cli.file a ++ "' 不是一个有效的文件")) as [|m];
    cbn [fst snd]; repeat split; try reflexivity;
    intros; try discriminate; congruence.
Qed.

Lemma main_rejects_non_file_witness :
  Cli.isfile (Cli.one_file_os "in.bin" [x7f]%byte) (Cli.file (Cli.default_args "none.bin"))
  = false
  /\ Cli.reads (fst (Cli.run (Cli.one_file_os "in.bin" [x7f]%byte)
                             (Cli.default_args "none.bin"))) = []
  /\ Cli.write_attempts (fst (Cli.run (Cli.one_file_os "in.bin" [x7f]%byte)
                                      (Cli.default_args "none.bin"))) = []
  /\ snd (Cli.run (Cli.one_file_os "in.bin" [x7f]%byte) (Cli.default_args "none.bin"))
     = Cli.Stopped (Cli.SystemExit 1)
  /\ snd (Cli.run (Cli.mute_os "in.bin" [x7f]%byte) (Cli.default_args "none.bin"))
     = Cli.Stopped (Cli.Uncaught (Cli.PrintError "stdout")).
Proof.
  split; [reflexivity|].
  destruct (main_rejects_non_file (Cli.one_file_os "in.bin" [x7f]%byte)
                                  (Cli.default_args "none.bin") eq_refl)
    as (R & W & P & _).
  destruct (main_rejects_non_file (Cli.mute_os "in.bin" [x7f]%byte)
                                  (Cli.default_args "none.bin") eq_refl)
    as (_ & _ & _ & F).
  split; [exact R|]. split; [exact W|]. split.
  - rewrite (P eq_refl). reflexivity.
  - rewrite (F "stdout" eq_refl). reflexivity.
Defined.



(** X13: [main] does not check the width.  With width 0 and a readable,
    non-empty regular file no file is opened for writing and the run ends
    by an exception that leaves [main]; when no [print] raises it is the
    [ValueError] of the formatter, after exactly the two lines about the
    file and its size have been printed. *)
Theorem zero_width_stops_main (sys : Cli.os) (a : Cli.args) (data : list byte) :
  Cli.isfile sys (Cli.file a) = true ->
  Cli.open_rb sys (Cli.file a) = Cli.ReadOk data ->
  data <> [] -> Cli.width a = 0 ->
  Cli.write_attempts (fst (Cli.run sys a)) = []
  /\ (exists e, snd (Cli.run sys a) = Cli.Stopped (Cli.Uncaught e))
  /\ (Cli.stdout_works sys ->
      snd (Cli.run sys a) = Cli.Stopped (Cli.Uncaught (Cli.FormatterError ValueError))
      /\ Cli.printed (fst (Cli.run sys a))
         = ["读取文件: " ++ Cli.file a;
            "文件大小: " ++ str (List.length data) ++ " 字节"]).
Proof.
  intros HI HR Hne Hw.
  pose proof (formatted_zero_width a data Hne Hw) as HF.
  unfold_run. rewrite HI, HR. cbn [negb List.app fst snd]. follow_run.
  all: try congruence.
  all: split; [reflexivity|]; split; [eexists; reflexivity|].
  all: intros Hworks; try stdout_refuses Hworks.
  assert (ex = ValueError) as -> by congruence.
  split; reflexivity.
Qed.

Lemma zero_width_stops_main_witness :
  Cli.isfile (Cli.one_file_os "in.bin" [x7f]%byte)
             (Cli.file {| Cli.file := "in.bin"; Cli.output := "out.txt"; Cli.name := "buf";
                          Cli.width := 0; Cli.hex_format := true; Cli.preview := false |})
  = true
  /\ [x7f]%byte <> []
  /\ Cli.write_attempts
       (fst (Cli.run (Cli.one_file_os "in.bin" [x7f]%byte)
                     {| Cli.file := "in.bin"; Cli.output := "out.txt"; Cli.name := "buf";
                        Cli.width := 0; Cli.hex_format := true; Cli.preview := false |}))
     = [].
Proof.
  split; [reflexivity|]. split; [discriminate|].
  apply (zero_width_stops_main
           (Cli.one_file_os "in.bin" [x7f]%byte)
           {| Cli.file := "in.bin"; Cli.output := "out.txt"; Cli.name := "buf";
              Cli.width := 0; Cli.hex_format := true; Cli.preview := false |}
           [x7f]%byte);
    [reflexivity | reflexivity | discriminate | reflexivity].
Defined.

(** X15: writes and the end of a run.  A run that returns normally
    without the preview flag has completed exactly one write: [args.output]
    holds the text of the selected formatter.  A run that does not return
    normally although a write was completed has had a [print] raise after
    it; so on a standard output that never raises, a run that does not
    return normally has completed no write.  The only file a run creates or
    truncates is [args.output], and only without the preview flag. *)
Theorem writes_follow_outcome (sys : Cli.os) (a : Cli.args) :
  (snd (Cli.run sys a) = Cli.Done tt -> Cli.preview a = false ->
   exists data c,
     Cli.open_rb sys (Cli.file a) = Cli.ReadOk data
     /\ Cli.formatted a data = Ok c
     /\ Cli.writes (fst (Cli.run sys a)) = [(Cli.output a, c)])
  /\ (snd (Cli.run sys a) <> Cli.Done tt ->
      Cli.writes (fst (Cli.run sys a)) <> [] ->
      Cli.failed_prints (fst (Cli.run sys a)) <> [])
  /\ (Cli.stdout_works sys ->
      snd (Cli.run sys a) <> Cli.Done tt ->
      Cli.writes (fst (Cli.run sys a)) = [])
  /\ (forall p, In p (Cli.changed_files (fst (Cli.run sys a))) ->
                p = Cli.output a /\ Cli.preview a = false).
Proof.
  split; [|split; [|split]].
  - unfold_run. follow_run. all: intros H HV; try discriminate H; try discriminate HV.
    do 2 eexists. repeat split; eauto.
  - unfold_run. follow_run. all: intros H HW.
    all: try (exfalso; now apply H).
    all: try (exfalso; now apply HW).
    all: discriminate.
  - intros Hworks. unfold_run. follow_run. all: intros H.
    all: try stdout_refuses Hworks.
    all: try reflexivity.
    all: exfalso; now apply H.
  - unfold_run. follow_run. all: intros p H; cbn in H; try contradiction.
    all: destruct H as [<-|[]]; now split.
Qed.

Lemma writes_follow_outcome_witness :
  snd (Cli.run (Cli.one_file_os "in.bin" [x7f]%byte) (Cli.default_args "in.bin")) = Cli.Done tt
  /\ Cli.preview (Cli.default_args "in.bin") = false
  /\ (exists data c,
        Cli.open_rb (Cli.one_file_os "in.bin" [x7f]%byte) (Cli.file (Cli.default_args "in.bin"))
        = Cli.ReadOk data
        /\ Cli.formatted (Cli.default_args "in.bin") data = Ok c
        /\ Cli.writes (fst (Cli.run (Cli.one_file_os "in.bin" [x7f]%byte)
                                    (Cli.default_args "in.bin")))
           = [(Cli.output (Cli.default_args "in.bin"), c)])
  /\ snd (Cli.run (Cli.mute_os "in.bin" [x7f]%byte) (Cli.default_args "in.bin"))
     <> Cli.Done tt.
Proof.
  split; [reflexivity|]. split; [reflexivity|]. split.
  - apply (proj1 (writes_follow_outcome (Cli.one_file_os "in.bin" [x7f]%byte)
                                        (Cli.default_args "in.bin")));
      reflexivity.
  - discriminate.
Defined.

Lemma preview_run (sys : Cli.os) (a : Cli.args) (data : list byte) (c : string) :
  Cli.isfile sys (Cli.file a) = true ->
  Cli.open_rb sys (Cli.file a) = Cli.ReadOk data ->
  Cli.formatted a data = Ok c ->
  Cli.preview a = true ->
  (snd (Cli.run sys a) = Cli.Done tt ->
   last (Cli.printed (fst (Cli.run sys a))) EmptyString = c)
  /\ (Cli.stdout_works sys -> snd (Cli.run sys a) = Cli.Done tt).
Proof.
  intros HI HR HF HV. unfold_run.
  rewrite HI, HR. cbn [negb List.app fst snd]. follow_run.
  all: try congruence.
  all: split; [intros H; try discriminate H | intros Hworks; try stdout_refuses Hworks].
  all: try reflexivity.
  cbn. congruence.
Qed.

(** X16: the preview shows what would be written.  If a run without the
    preview flag hands the text [c] to the file system, then in the run
    with the flag set, in the same environment and with otherwise equal
    arguments, [c] is the last text printed whenever that run returns
    normally, and it does return normally when no [print] raises. *)
Theorem preview_prints_what_is_written
    (sys : Cli.os) (a : Cli.args) (p c : string) :
  In (p, c) (Cli.write_attempts (fst (Cli.run sys (Cli.with_preview a false)))) ->
  (snd (Cli.run sys (Cli.with_preview a true)) = Cli.Done tt ->
   last (Cli.printed (fst (Cli.run sys (Cli.with_preview a true)))) EmptyString = c)
  /\ (Cli.stdout_works sys ->
      snd (Cli.run sys (Cli.with_preview a true)) = Cli.Done tt).
Proof.
  intros H.
  destruct (write_attempt_source sys (Cli.with_preview a false) p c H)
    as (_ & _ & HI & _ & data & HR & HF).
  apply (preview_run sys (Cli.with_preview a true) data c);
    [exact HI | exact HR | exact HF | reflexivity].
Qed.

Lemma preview_prints_what_is_written_witness :
  In ("out.txt",
      "unsigned char buf[] =" ++ newline
      ++ "    " ++ dquote ++ "\x7F" ++ dquote ++ ";" ++ newline
      ++ "/* Length: 1 bytes */")
     (Cli.write_attempts
        (fst (Cli.run (Cli.one_file_os "in.bin" [x7f]%byte)
                      (Cli.with_preview (Cli.default_args "in.bin") false))))
  /\ (snd (Cli.run (Cli.one_file_os "in.bin" [x7f]%byte)
                   (Cli.with_preview (Cli.default_args "in.bin") true)) = Cli.Done tt ->
      last (Cli.printed
              (fst (Cli.run (Cli.one_file_os "in.bin" [x7f]%byte)
                            (Cli.with_preview (Cli.default_args "in.bin") true))))
           EmptyString
      = "unsigned char buf[] =" ++ newline
        ++ "    " ++ dquote ++ "\x7F" ++ dquote ++ ";" ++ newline
        ++ "/* Length: 1 bytes */").
Proof.
  assert (H : In ("out.txt",
                  "unsigned char buf[] =" ++ newline
                  ++ "    " ++ dquote ++ "\x7F" ++ dquote ++ ";" ++ newline
                  ++ "/* Length: 1 bytes */")
                 (Cli.write_attempts
                    (fst (Cli.run (Cli.one_file_os "in.bin" [x7f]%byte)
                                  (Cli.with_preview (Cli.default_args "in.bin") false)))))
    by (vm_compute; left; reflexivity).
  split; [exact H|].
  exact (proj1 (preview_prints_what_is_written _ _ _ _ H)).
Defined.
